(** * pywa: the webhook server (src/pywa/server.py)

    A shallow embedding of the update classifier [Server._get_handler], the
    dispatch engine [Server._call_handlers], the verification handshake
    [challenge_handler] and the encrypted flow endpoint
    [flow_request_handler], with the properties the specification states
    about them. *)

From Stdlib Require Import ZArith String Ascii.
From Stdlib Require QArith.
From stdpp Require Import base option list gmap strings.

Set Default Proof Using "Type".
#[local] Set Warnings "-register-all".
Local Open Scope Z_scope.
Local Open Scope string_scope.
Local Open Scope list_scope.

(** ** Python values *)

(** What [flask.request.json] / [fastapi.Body] hand to the server: a parsed
    JSON document.  Objects are Python dicts with string keys. *)
Inductive json : Type :=
| JNull
| JBool (b : bool)
| JInt (n : Z)
| JFloat (x : QArith_base.Q)
| JStr (s : string)
| JList (l : list json)
| JDict (d : gmap string json).

(** The exceptions that occur in server.py, with the part of the class
    hierarchy its [except] clauses and [isinstance] tests look at.
    [FlowTokenNoLongerValid] is a subclass of [FlowResponseError], which like
    [StopHandling] is a subclass of [Exception]; [FlowResponseError n c] is an
    instance of any other subclass, named [n]; [SystemExiting] stands for the
    [BaseException]s outside [Exception] ([SystemExit],
    [KeyboardInterrupt]). *)
Inductive exception : Type :=
| KeyError
| IndexError
| TypeError
| ValueError
| StopHandling
| FlowTokenNoLongerValid (error_message : string) (status_code : Z)
| FlowResponseError (class_name : string) (status_code : Z)
| OtherException (class_name : string)
| SystemExiting (class_name : string).

(** [isinstance(e, Exception)] *)
Definition isinstance_Exception (e : exception) : bool :=
  match e with
  | SystemExiting _ => false
  | _ => true
  end.

(** [isinstance(e, StopHandling)] *)
Definition isinstance_StopHandling (e : exception) : bool :=
  match e with
  | StopHandling => true
  | _ => false
  end.

(** [isinstance(e, FlowTokenNoLongerValid)] *)
Definition isinstance_FlowTokenNoLongerValid (e : exception) : bool :=
  match e with
  | FlowTokenNoLongerValid _ _ => true
  | _ => false
  end.

(** [isinstance(e, FlowResponseError)] *)
Definition isinstance_FlowResponseError (e : exception) : bool :=
  match e with
  | FlowTokenNoLongerValid _ _ | FlowResponseError _ _ => true
  | _ => false
  end.

(** [e.__class__.__name__] *)
Definition class_name_of (e : exception) : string :=
  match e with
  | KeyError => "KeyError"
  | IndexError => "IndexError"
  | TypeError => "TypeError"
  | ValueError => "ValueError"
  | StopHandling => "StopHandling"
  | FlowTokenNoLongerValid _ _ => "FlowTokenNoLongerValid"
  | FlowResponseError n _ => n
  | OtherException n => n
  | SystemExiting n => n
  end.

(** [AttributeError], which reading an attribute that an object does not
    have raises; an [Exception]. *)
Definition AttributeError : exception := OtherException "AttributeError".

(** [e.status_code] of a flow response error *)
Definition status_code_of (e : exception) : Z :=
  match e with
  | FlowTokenNoLongerValid _ c | FlowResponseError _ c => c
  | _ => 0
  end.

(** An expression either evaluates to a value or raises. *)
Inductive result (A : Type) : Type :=
| Ok (a : A)
| Raise (e : exception).
Arguments Ok {A} a.
Arguments Raise {A} e.

#[global] Instance result_ret : MRet result := @Ok.
#[global] Instance result_bind : MBind result := fun A B f r =>
  match r with
  | Ok a => f a
  | Raise e => Raise e
  end.

(** [obj[key]] with a string key *)
Definition getitem (obj : json) (key : string) : result json :=
  match obj with
  | JDict d =>
      match d !! key with
      | Some v => Ok v
      | None => Raise KeyError
      end
  | _ => Raise TypeError
  end.

(** [obj[i]] with a non-negative integer index: a list or a str is indexed,
    a dict has no integer key, anything else is not subscriptable. *)
Definition getindex (obj : json) (i : nat) : result json :=
  match obj with
  | JList l =>
      match l !! i with
      | Some v => Ok v
      | None => Raise IndexError
      end
  | JStr s =>
      match String.get i s with
      | Some c => Ok (JStr (String c EmptyString))
      | None => Raise IndexError
      end
  | JDict _ => Raise KeyError
  | _ => Raise TypeError
  end.

Notation "o .[ k ]" := (getitem o k) (at level 1, left associativity, format "o .[ k ]").
Notation "o .( i )" := (getindex o i) (at level 1, left associativity, format "o .( i )").

(** [obj == s] for a str [s] *)
Definition eq_str (obj : json) (s : string) : bool :=
  match obj with
  | JStr t => bool_decide (t = s)
  | _ => false
  end.

(** [needle in hay] on two strs: substring test *)
Fixpoint substring_of (needle hay : string) : bool :=
  String.prefix needle hay ||
  match hay with
  | EmptyString => false
  | String _ rest => substring_of needle rest
  end.

(** [key in obj] for a str [key] *)
Definition contains (obj : json) (key : string) : result bool :=
  match obj with
  | JDict d => Ok (bool_decide (is_Some (d !! key)))
  | JList l => Ok (existsb (fun x => eq_str x key) l)
  | JStr s => Ok (substring_of key s)
  | _ => Raise TypeError
  end.

(** Lists and dicts are unhashable; every other JSON value is hashable. *)
Definition hashable (obj : json) : bool :=
  match obj with
  | JList _ | JDict _ => false
  | _ => true
  end.

(** [table.get(key)] on a dict whose keys are strs (or members of a str
    enumeration): hashing an unhashable key raises TypeError, and a hashable
    key that is not a str equals no key. *)
Definition dict_get {A : Type} (table : gmap string A) (key : json) : result (option A) :=
  match key with
  | JStr s => Ok (table !! s)
  | JList _ | JDict _ => Raise TypeError
  | _ => Ok None
  end.

(** [table.get(key, default)] *)
Definition dict_get_default {A : Type} (table : gmap string A) (key : json) (dflt : A) : result A :=
  h ← dict_get table key; Ok (default dflt h).

(** ** Handler categories *)

(** The subclasses of [pywa.handlers.Handler] that server.py names, and
    [OtherHandler n] for any further subclass, named [n], that the
    field table may hold. *)
Inductive HandlerType : Type :=
| MessageHandler
| CallbackButtonHandler
| CallbackSelectionHandler
| FlowCompletionHandler
| MessageStatusHandler
| ChatOpenedHandler
| RawUpdateHandler
| OtherHandler (class_name : string).

(** [_INTERACTIVE_TYPES] *)
Definition _INTERACTIVE_TYPES : gmap string HandlerType :=
  <["nfm_reply" := FlowCompletionHandler]>
    (<["list_reply" := CallbackSelectionHandler]>
       (<["button_reply" := CallbackButtonHandler]> ∅)).

(** Modelled from the spec: [FlowRequestCannotBeDecrypted.status_code], a
    class attribute declared in pywa/types/flows.py; the fixed status code
    of a decryption failure is 421. *)
Definition FlowRequestCannotBeDecrypted_status_code : Z := 421.

(** A dict display [{k1: v1, ...}] *)
Definition dict (items : list (string * json)) : json := JDict (list_to_map items).

(** Python [bytes] *)
Definition bytes : Type := list Byte.byte.

(** ** What server.py imports from the rest of the package *)

(** The declarations of pywa that server.py uses and that live in other
    modules, with the state that the registered callbacks act on. *)
Class Package : Type := {
  (** The values of the members of the str enumeration
      [pywa.types.MessageType] that server.py uses.  A str from the
      notification equals a member when it equals the member's value, and
      hashes like it. *)
  INTERACTIVE : string;
  BUTTON : string;
  REQUEST_WELCOME : string;
  (** [Handler._fields_to_subclasses()]: the static table from webhook
      field names to handler categories. *)
  _fields_to_subclasses : gmap string HandlerType;
  (** The state of the application and of the world that callbacks act on. *)
  State : Type;
  (** The typed updates ([pywa.types.base_update.BaseUpdate]). *)
  Update : Type;
  (** [pywa.types.FlowRequest], with [FlowRequest.from_dict(data=...,
      raw_encrypted=...)] and the attributes [request.has_error] and
      [request.version]. *)
  FlowRequest : Type;
  FlowRequest_from_dict : json → json → result FlowRequest;
  has_error : FlowRequest → bool;
  version : FlowRequest → string;
  (** [pywa.types.FlowResponse], with [response.to_dict()]. *)
  FlowResponse : Type;
  to_dict : FlowResponse → json;
}.

(** ** What server.py uses of [pywa.utils], [pywa.errors] and the API client *)

(** [utils.FlowRequestDecryptor] and [utils.FlowResponseEncryptor] *)
Definition FlowRequestDecryptor : Type :=
  json → json → json → string → option string → result (json * bytes * bytes).
Definition FlowResponseEncryptor : Type := json → bytes → bytes → result string.

(** A decryptor or encryptor as an object: the default one of
    [pywa.utils], which server.py recognises with [is], or another
    callable. *)
Inductive callable (F : Type) : Type :=
| Default
| Custom (f : F).
Arguments Default {F}.
Arguments Custom {F} f.

Class Utils : Type := {
  (** the server objects, with [utils.is_flask_app] and
      [utils.is_fastapi_app] *)
  App : Type;
  is_flask_app : App → bool;
  is_fastapi_app : App → bool;
  (** [utils.is_cryptography_installed()] *)
  is_cryptography_installed : bool;
  (** [utils.default_flow_request_decryptor] and
      [utils.default_flow_response_encryptor] *)
  default_flow_request_decryptor : FlowRequestDecryptor;
  default_flow_response_encryptor : FlowResponseEncryptor;
}.

(** The methods of [self.api] that the registration of the callback URL
    calls, each with what it returns or raises, and
    [isinstance(e, WhatsAppError)]. *)
Class Api : Type := {
  get_app_access_token : Z → string → result json;
  set_app_callback_url : Z → json → string → string → list string → result json;
  isinstance_WhatsAppError : exception → bool;
}.

(** ** Truth values and strings *)

(** [bool(obj)]: None, False, zero, and the empty str, list and dict are
    false. *)
Definition truthy (obj : json) : bool :=
  match obj with
  | JNull => false
  | JBool b => b
  | JInt n => negb (Z.eqb n 0)
  | JFloat x => negb (Z.eqb (QArith_base.Qnum x) 0)
  | JStr s => negb (bool_decide (s = ""))
  | JList l => negb (bool_decide (l = []))
  | JDict d => negb (bool_decide (d = ∅))
  end.

(** [bool(s)] for [s: str | None] *)
Definition truthy_str (s : option string) : bool :=
  match s with
  | Some s => negb (bool_decide (s = ""))
  | None => false
  end.

(** [a or b] on [str | None] values *)
Definition or_str (a b : option string) : option string :=
  if truthy_str a then a else b.

(** [a or b] on optional callables; a callable is true *)
Definition or_callable {F : Type} (a b : option (callable F)) : option (callable F) :=
  match a with
  | Some _ => a
  | None => b
  end.

(** [s.lstrip("/")]: [s] without its leading slashes *)
Fixpoint lstrip_slash (s : string) : string :=
  match s with
  | String "/"%char rest => lstrip_slash rest
  | _ => s
  end.

(** [s.rstrip("/")]: [s] without its trailing slashes *)
Fixpoint rstrip_slash (s : string) : string :=
  match s with
  | EmptyString => EmptyString
  | String c rest =>
      match rstrip_slash rest with
      | EmptyString => if bool_decide (c = "/"%char) then EmptyString else String c EmptyString
      | kept => String c kept
      end
  end.

Section Server.

Context `{pkg : Package}.

(** [_MESSAGE_TYPES]; a dict literal keeps the last value of a repeated key *)
Definition _MESSAGE_TYPES : gmap string HandlerType :=
  <[REQUEST_WELCOME := ChatOpenedHandler]>
    (<[BUTTON := CallbackButtonHandler]> ∅).

(** What a handler is called with: [handle(wa, data: Any)] gets the
    constructed update in the category loop and the raw dict in the raw
    loop. *)
Inductive data : Type :=
| Constructed (u : Update)
| RawUpdate (update : json).

(** A registered handler: [handler.callback.__name__], which is [None] for
    a callback without that attribute (a [functools.partial], an instance
    of a class with [__call__]), and [handler.handle], which returns or
    raises and may change the state. *)
Record Handler : Type := {
  callback_name : option string;
  handle : data → State → result unit * State;
}.

(** The client ([self: WhatsApp]) as far as server.py reads it, once
    [__init__] has run for a server, so that [self._webhook_endpoint], which
    the log calls read, is set. *)
Record WhatsApp : Type := {
  filter_updates : bool;
  phone_id : string;
  (** Modelled from the spec: the handler registry [self._handlers] that
      pywa/client.py builds; a lookup yields the handlers registered for a
      category in registration order, the empty sequence for a category
      with none, never an error. *)
  _handlers : HandlerType → list Handler;
}.

(** [handler_type._update_constructor(self, update)]: builds the typed
    update from the raw one, or raises. *)
Class Constructors : Type := {
  _update_constructor : HandlerType → WhatsApp → json → result Update;
}.
Context `{constructors : Constructors}.

(** *** The update classifier *)

(** [except (KeyError, IndexError, TypeError)] *)
Definition is_lookup_error (e : exception) : bool :=
  match e with
  | KeyError | IndexError | TypeError => true
  | _ => false
  end.

(** [update["entry"][0]["changes"][0]] *)
Definition first_change (update : json) : result json :=
  entries ← update.["entry"]; entry ← entries.(0);
  changes ← entry.["changes"]; changes.(0).

(** The first [try] of [_get_handler]: the field and the value of the
    first change of the first entry. *)
Definition field_and_value (update : json) : result (json * json) :=
  match
    change ← first_change update; field ← change.["field"];
    change ← first_change update; value ← change.["value"];
    Ok (field, value)
  with
  | Ok fv => Ok fv
  | Raise e => if is_lookup_error e then Raise ValueError else Raise e
  end.

(** [value["messages"][0]["interactive"]["type"]] *)
Definition interactive_type_of (value : json) : result json :=
  ms ← value.["messages"]; m0 ← ms.(0); i ← m0.["interactive"]; i.["type"].

(** The branch for a value that contains [messages]. *)
Definition message_handler (value : json) : result (option HandlerType) :=
  ms ← value.["messages"]; m0 ← ms.(0); msg_type ← m0.["type"];
  let fallback := h ← dict_get_default _MESSAGE_TYPES msg_type MessageHandler; Ok (Some h) in
  if eq_str msg_type INTERACTIVE then
    match interactive_type_of value with
    | Raise KeyError => Ok (Some MessageHandler)
    | Raise e => Raise e
    | Ok interactive_type =>
        handler ← dict_get _INTERACTIVE_TYPES interactive_type;
        match handler with
        | Some h => Ok (Some h)
        | None => (* warning: unknown interactive message type *) fallback
        end
    end
  else fallback.

(** [not self.filter_updates or value["metadata"]["phone_number_id"] == self.phone_id] *)
Definition for_this_phone (self : WhatsApp) (value : json) : result bool :=
  if negb (filter_updates self) then Ok true
  else m ← value.["metadata"]; p ← m.["phone_number_id"]; Ok (eq_str p (phone_id self)).

Definition _get_handler (self : WhatsApp) (update : json) : result (option HandlerType) :=
  '(field, value) ← field_and_value update;
  if eq_str field "messages" then
    ours ← for_this_phone self value;
    if ours : bool then
      has_messages ← contains value "messages";
      if has_messages : bool then message_handler value
      else
        has_statuses ← contains value "statuses";
        if has_statuses : bool then Ok (Some MessageStatusHandler)
        else (* warning: unknown message type *) Ok None
    else Ok None
  else dict_get _fields_to_subclasses field.

(** *** Running callbacks *)

(** What has been called so far, oldest first: a handler of a category
    with its argument and what it did, or the callback of a flow endpoint
    with its request. *)
Inductive event : Type :=
| Handled (category : HandlerType) (handler : Handler) (d : data) (outcome : result unit)
| FlowCallback (request : FlowRequest).

Record world : Type := {
  app : State;
  calls : list event;
}.

(** A statement: runs in a world, changes it, and completes or raises. *)
Definition M (A : Type) : Type := world → result A * world.

#[global] Instance M_ret : MRet M := λ A a w, (Ok a, w).
#[global] Instance M_bind : MBind M := λ A B f m w,
  match m w with
  | (Ok a, w') => f a w'
  | (Raise e, w') => (Raise e, w')
  end.

(** An expression without effect, as a statement. *)
Definition eval {A : Type} (r : result A) : M A := λ w, (r, w).

(** [try: body / except Exception as e: handler] *)
Definition try_except_Exception {A : Type} (body : M A) (handler : exception → M A) : M A :=
  λ w,
  match body w with
  | (Raise e, w') => if isinstance_Exception e then handler e w' else (Raise e, w')
  | done => done
  end.

(** [handler.handle(self, d)], noted in [calls] *)
Definition call_handle (category : HandlerType) (handler : Handler) (d : data) : M unit :=
  λ w,
  let '(outcome, s) := handle handler d (app w) in
  (outcome, {| app := s; calls := calls w ++ [Handled category handler d outcome] |}).

(** *** The dispatch engine *)

(** [_logger.exception("... %s ...", callback.__name__)] in an [except]
    clause: the name of the callback is read before anything is logged, and
    reading it raises AttributeError when the callback has none. *)
Definition log_exception (name : option string) : result unit :=
  match name with
  | Some _ => Ok ()
  | None => Raise AttributeError
  end.

(** [for handler in handlers: try: handler.handle(self, d) / except
    Exception as e: if isinstance(e, StopHandling): break /
    _logger.exception(..., handler.callback.__name__)]; an error of the log
    call is raised in the [except] clause and so ends the loop. *)
Fixpoint for_each_handler (category : HandlerType) (handlers : list Handler) (d : data) : M unit :=
  match handlers with
  | [] => mret ()
  | handler :: rest =>
      λ w,
      match call_handle category handler d w with
      | (Ok _, w') => for_each_handler category rest d w'
      | (Raise e, w') =>
          if isinstance_Exception e then
            if isinstance_StopHandling e then (Ok (), w')
            else
              match log_exception (callback_name handler) with
              | Ok _ => for_each_handler category rest d w'
              | Raise e' => (Raise e', w')
              end
          else (Raise e, w')
      end
  end.

(** [except (ValueError, KeyError, TypeError, IndexError)] *)
Definition is_invalid_update_error (e : exception) : bool :=
  match e with
  | ValueError | KeyError | TypeError | IndexError => true
  | _ => false
  end.

(** [Server._call_handlers].  Its own log calls read [update] and
    [self._webhook_endpoint] only, and raise nothing; those of the two
    loops are in [for_each_handler]. *)
Definition _call_handlers (self : WhatsApp) (update : json) : M unit :=
  match _get_handler self update with
  | Raise e =>
      if is_invalid_update_error e then (* logged *) mret ()
      else eval (Raise e)
  | Ok handler_type =>
      match handler_type with
      | Some handler_type =>
          try_except_Exception
            (constructed_update ← eval (_update_constructor handler_type self update);
             for_each_handler handler_type (_handlers self handler_type)
               (Constructed constructed_update))
            (λ _, (* logged *) mret ())
      | None => mret ()
      end;;
      for_each_handler RawUpdateHandler (_handlers self RawUpdateHandler) (RawUpdate update)
  end.

(** *** The verification handshake *)

(** [challenge_handler(vt, ch)] for the configured [verify_token]; a query
    parameter that is absent reaches it as [None]. *)
Definition challenge_handler (verify_token : string) (vt ch : option string) : option string * Z :=
  if bool_decide (vt = Some verify_token) then (ch, 200)
  else (Some "Error, invalid verification token", 403).

(** *** The encrypted flow endpoint *)

(** What a flow callback may return: a [FlowResponse], a [dict], an
    exception object, or something of another type ([None], say). *)
Inductive response : Type :=
| ReturnedFlowResponse (r : FlowResponse)
| ReturnedDict (d : gmap string json)
| ReturnedException (e : exception)
| ReturnedOther (type_name : string).

(** The callback of a flow endpoint, a callable object: what calling it
    with the client and a request does, and its [__name__], which is [None]
    for a callable without that attribute (a [functools.partial], an
    instance of a class with [__call__]). *)
Record FlowRequestCallback : Type := {
  __call__ :> FlowRequest → State → result response * State;
  __name__ : option string;
}.

(** The variables [flow_request_handler] closes over: the arguments of
    [_register_flow_endpoint_callback] after its defaults are filled in. *)
Record FlowEndpoint : Type := {
  endpoint : string;
  callback : FlowRequestCallback;
  acknowledge_errors : bool;
  handle_health_check : bool;
  private_key : string;
  private_key_password : option string;
  request_decryptor :
    json → json → json → string → option string → result (json * bytes * bytes);
  response_encryptor : json → bytes → bytes → result string;
}.

(** [callback(self, request)], noted in [calls] *)
Definition call_callback (ep : FlowEndpoint) (request : FlowRequest) : M response :=
  λ w,
  let '(returned, s) := callback ep request (app w) in
  (returned, {| app := s; calls := calls w ++ [FlowCallback request] |}).

(** [return response_encryptor(reply, aes_key, iv), status] *)
Definition encrypted (ep : FlowEndpoint) (reply : json) (aes_key iv : bytes) (status : Z)
  : M (string * Z) :=
  body ← eval (response_encryptor ep reply aes_key iv); mret (body, status).

(** The [try] around the decryptor. *)
Definition decrypt (ep : FlowEndpoint) (payload : json) : result (json * bytes * bytes) :=
  data ← payload.["encrypted_flow_data"];
  key ← payload.["encrypted_aes_key"];
  vector ← payload.["initial_vector"];
  request_decryptor ep data key vector (private_key ep) (private_key_password ep).

(** [handle_health_check and decrypted_request["action"] == "ping"] *)
Definition is_ping (ep : FlowEndpoint) (decrypted_request : json) : result bool :=
  if handle_health_check ep then
    action ← decrypted_request.["action"]; Ok (eq_str action "ping")
  else Ok false.

(** The body of the [try] around the callback. *)
Definition call_or_raise (ep : FlowEndpoint) (request : FlowRequest) : M response :=
  returned ← call_callback ep request;
  match returned with
  | ReturnedException e =>
      if isinstance_FlowResponseError e then eval (Raise e) else mret returned
  | _ => mret returned
  end.

(** From the callback to the end of [flow_request_handler]; the log call
    of [except Exception] reads [callback.__name__]. *)
Definition answer (ep : FlowEndpoint) (request : FlowRequest) (aes_key iv : bytes)
  : M (string * Z) :=
  λ w,
  match call_or_raise ep request w with
  | (Raise (FlowTokenNoLongerValid error_message status_code), w') =>
      encrypted ep (dict [("error_msg", JStr error_message)]) aes_key iv status_code w'
  | (Raise (FlowResponseError class_name status_code), w') =>
      (Ok (class_name, status_code), w')
  | (Raise e, w') =>
      if isinstance_Exception e then
        match log_exception (__name__ (callback ep)) with
        | Ok _ => (Ok ("An error occurred", 500), w')
        | Raise e' => (Raise e', w')
        end
      else (Raise e, w')
  | (Ok returned, w') =>
      if acknowledge_errors ep && has_error request then
        encrypted ep
          (dict [("version", JStr (version request));
                 ("data", dict [("acknowledged", JBool true)])])
          aes_key iv 200 w'
      else
        match returned with
        | ReturnedFlowResponse r => encrypted ep (to_dict r) aes_key iv 200 w'
        | ReturnedDict d => encrypted ep (JDict d) aes_key iv 200 w'
        | _ => (Raise TypeError, w')
        end
  end.

(** [flow_request_handler].  The log calls of its first two [except]
    clauses read [endpoint], [payload] and [decrypted_request] only, and
    raise nothing; the third one is in [answer]. *)
Definition flow_request_handler (ep : FlowEndpoint) (payload : json) : M (string * Z) :=
  λ w,
  match decrypt ep payload with
  | Raise e =>
      if isinstance_Exception e then
        (* logged *) (Ok ("Decryption failed", FlowRequestCannotBeDecrypted_status_code), w)
      else (Raise e, w)
  | Ok (decrypted_request, aes_key, iv) =>
      match is_ping ep decrypted_request with
      | Raise e => (Raise e, w)
      | Ok true =>
          (v ← eval decrypted_request.["version"];
           encrypted ep (dict [("version", v); ("data", dict [("status", JStr "active")])])
             aes_key iv 200) w
      | Ok false =>
          match FlowRequest_from_dict decrypted_request payload with
          | Raise e =>
              if isinstance_Exception e then
                (* logged *) (Ok ("Failed to construct FlowRequest", 500), w)
              else (Raise e, w)
          | Ok request => answer ep request aes_key iv w
          end
      end
  end.

(** The same endpoint registered with a callback of the same name that
    does something else. *)
Definition with_callback (ep : FlowEndpoint)
    (cb : FlowRequest → State → result response * State) : FlowEndpoint :=
  {| endpoint := endpoint ep;
     callback := {| __call__ := cb; __name__ := __name__ (callback ep) |};
     acknowledge_errors := acknowledge_errors ep;
     handle_health_check := handle_health_check ep;
     private_key := private_key ep;
     private_key_password := private_key_password ep;
     request_decryptor := request_decryptor ep;
     response_encryptor := response_encryptor ep |}.

(** *** Reading the record of calls *)

(** [hasattr(handler.callback, "__name__")] *)
Definition has_name (handler : Handler) : bool :=
  if callback_name handler is Some _ then true else false.

(** After a handler that returned, or raised an [Exception] other than
    StopHandling that the loop could log with the name of the callback,
    the loop goes on to the next handler. *)
Definition goes_on (handler : Handler) (outcome : result unit) : bool :=
  match outcome with
  | Ok _ => true
  | Raise e =>
      isinstance_Exception e && negb (isinstance_StopHandling e) && has_name handler
  end.

(** A handler that raised outside [Exception] is not caught at all. *)
Definition escapes (outcome : result unit) : bool :=
  match outcome with
  | Ok _ => false
  | Raise e => negb (isinstance_Exception e)
  end.

(** What a loop raises after a handler was called, if it raises: what the
    handler raised when that is no [Exception], and AttributeError when the
    handler raised an [Exception] other than StopHandling and its callback
    has no name to log it with. *)
Definition raised_by (handler : Handler) (outcome : result unit) : option exception :=
  match outcome with
  | Ok _ => None
  | Raise e =>
      if isinstance_Exception e then
        if isinstance_StopHandling e || has_name handler then None
        else Some AttributeError
      else Some e
  end.

(** The state in which handler number [n] of a loop is called, when the
    loop starts in [s] and gets that far: each handler is called in the
    state that the one before it left. *)
Fixpoint state_at (handlers : list Handler) (d : data) (s : State) (n : nat) {struct n}
  : State :=
  match n, handlers with
  | S n, handler :: rest => state_at rest d (handle handler d s).2 n
  | _, _ => s
  end.

(** The calls of one loop: the handlers in the order of the registry, each
    with the loop's argument and what it did. *)
Definition loop_calls (category : HandlerType) (handlers : list Handler) (d : data)
    (outcomes : list (result unit)) : list event :=
  zip_with (λ handler outcome, Handled category handler d outcome) handlers outcomes.

(** What the handlers of one loop that starts in the state [s] did, the
    first registered first: [outcomes] are those of the handlers that were
    called. *)
Record loop_outcomes (handlers : list Handler) (d : data) (s : State)
    (outcomes : list (result unit)) : Prop := {
  (** no handler is called twice *)
  loop_within : (length outcomes ≤ length handlers)%nat;
  (** each outcome is what the handler in its place did, in the state that
      the handlers before it left *)
  loop_real : ∀ i handler o,
    handlers !! i = Some handler → outcomes !! i = Some o →
    (handle handler d (state_at handlers d s i)).1 = o;
  (** the first handler is called *)
  loop_starts : handlers ≠ [] → outcomes ≠ [];
  (** after a handler that returned, or raised an ordinary error that
      could be logged, the next one is called *)
  loop_goes_on : ∀ i handler o,
    handlers !! i = Some handler → outcomes !! i = Some o → goes_on handler o = true →
    (S i < length handlers)%nat → (S i < length outcomes)%nat;
  (** after a handler that raised StopHandling, escaped, or raised an error
      that could not be logged, none is *)
  loop_ends : ∀ i handler o,
    handlers !! i = Some handler → outcomes !! i = Some o → goes_on handler o = false →
    length outcomes = S i;
}.

(** The categories that server.py itself gives to a [messages]
    notification. *)
Definition message_categories : list HandlerType :=
  [MessageHandler; CallbackButtonHandler; CallbackSelectionHandler;
   FlowCompletionHandler; ChatOpenedHandler; MessageStatusHandler].

(** *** Setting up the server *)

Context `{utils : Utils} `{api : Api}.

(** The arguments of [Server.__init__]. *)
Record ServerArgs : Type := {
  server : option App;
  webhook_endpoint : string;
  callback_url : option string;
  fields : option (list string);
  app_id : option Z;
  app_secret : option string;
  verify_token : option string;
  verify_timeout : option Z;
  business_private_key : option string;
  business_private_key_password : option string;
  flows_request_decryptor : option (callable FlowRequestDecryptor);
  flows_response_encryptor : option (callable FlowResponseEncryptor);
}.

(** The attributes that [__init__] sets on [self] when there is a server;
    without one it sets [self._server = None] and nothing else. *)
Record Server : Type := {
  _server : App;
  _webhook_endpoint : string;
  _private_key : option string;
  _private_key_password : option string;
  _flows_request_decryptor : option (callable FlowRequestDecryptor);
  _flows_response_encryptor : option (callable FlowResponseEncryptor);
}.

(** What a route of the server calls: the challenge handler, which closes
    over the verify token, the webhook handler, or the handler of a flow
    endpoint. *)
Inductive view : Type :=
| ChallengeView (token : string)
| WebhookView
| FlowView (ep : FlowEndpoint).

(** A route registered on the server: method, path and view. *)
Record route : Type := Route {
  route_method : string;
  route_path : string;
  route_view : view;
}.

(** What [register_callback_url] closes over. *)
Record Registration : Type := {
  reg_callback_url : string;
  reg_webhook_endpoint : string;
  reg_app_id : Z;
  reg_app_secret : string;
  reg_verify_token : string;
  reg_verify_timeout : option Z;
  reg_fields : option (list string);
}.

(** [Server.__init__]: the attributes of [self] ([None] for
    [self._server = None]) and the registration it starts in a thread, or
    the error it raises; and the routes it has registered on the server by
    then. *)
Definition __init__ (args : ServerArgs)
  : result (option Server * option Registration) * list route :=
  match server args with
  | None => (Ok (None, None), [])
  | Some app =>
      let self :=
        {| _server := app;
           _webhook_endpoint := webhook_endpoint args;
           _private_key := business_private_key args;
           _private_key_password := business_private_key_password args;
           _flows_request_decryptor := flows_request_decryptor args;
           _flows_response_encryptor := flows_response_encryptor args |} in
      match verify_token args with
      | Some token =>
          if bool_decide (token = "") then (Raise ValueError, [])
          else
            (* the GET and POST routes of the webhook, registered the
               same on a Flask and on a FastAPI app *)
            let routes :=
              [Route "GET" (webhook_endpoint args) (ChallengeView token);
               Route "POST" (webhook_endpoint args) WebhookView] in
            let with_routes :=
              match callback_url args with
              | Some url =>
                  match app_id args, app_secret args with
                  | Some id, Some secret =>
                      (Ok (Some self,
                           Some {| reg_callback_url := url;
                                   reg_webhook_endpoint := webhook_endpoint args;
                                   reg_app_id := id;
                                   reg_app_secret := secret;
                                   reg_verify_token := token;
                                   reg_verify_timeout := verify_timeout args;
                                   reg_fields := fields args |}),
                       routes)
                  | _, _ => (Raise ValueError, routes)
                  end
              | None => (Ok (Some self, None), routes)
              end in
            if is_flask_app app then with_routes
            else if is_fastapi_app app then with_routes
            else (Raise ValueError, [])
      | None => (Raise ValueError, [])
      end
  end.

(** [flask_challenge]: the query parameters of the request, absent ones as
    [None], go to the challenge handler. *)
Definition flask_challenge (token : string) (query : gmap string string) : option string * Z :=
  challenge_handler token (query !! "hub.verify_token") (query !! "hub.challenge").

(** [fastapi_challenge]: both query parameters are required, and the
    answer of the challenge handler is the content and the status code of the
    response. *)
Definition fastapi_challenge (token vt ch : string) : option string * Z :=
  challenge_handler token (Some vt) (Some ch).

(** [obj is utils.default_...] *)
Definition is_default {F : Type} (obj : callable F) : bool :=
  match obj with
  | Default => true
  | Custom _ => false
  end.

(** The function that a decryptor or an encryptor object is. *)
Definition decryptor_of (obj : callable FlowRequestDecryptor) : FlowRequestDecryptor :=
  match obj with
  | Default => default_flow_request_decryptor
  | Custom f => f
  end.

Definition encryptor_of (obj : callable FlowResponseEncryptor) : FlowResponseEncryptor :=
  match obj with
  | Default => default_flow_response_encryptor
  | Custom f => f
  end.

(** [Server._register_flow_endpoint_callback], for [self] as [__init__]
    left it: the routes it registers on the server, or the error it
    raises. *)
Definition _register_flow_endpoint_callback (self : option Server)
    (endpoint : string)
    (callback : FlowRequestCallback)
    (acknowledge_errors handle_health_check : bool)
    (private_key private_key_password : option string)
    (request_decryptor : option (callable FlowRequestDecryptor))
    (response_encryptor : option (callable FlowResponseEncryptor))
  : result (list route) :=
  match self with
  | None => Raise ValueError
  | Some self =>
      let private_key := or_str private_key (_private_key self) in
      let private_key_password := or_str private_key_password (_private_key_password self) in
      match private_key with
      | Some key =>
          if bool_decide (key = "") then Raise ValueError
          else
            match or_callable request_decryptor (_flows_request_decryptor self) with
            | None => Raise ValueError
            | Some request_decryptor =>
                match or_callable response_encryptor (_flows_response_encryptor self) with
                | None => Raise ValueError
                | Some response_encryptor =>
                    if (is_default request_decryptor || is_default response_encryptor)
                       && negb is_cryptography_installed
                    then Raise ValueError
                    else if bool_decide (endpoint = _webhook_endpoint self)
                    then Raise ValueError
                    else
                      let flow_request_handler :=
                        FlowView
                          (Build_FlowEndpoint endpoint callback acknowledge_errors
                             handle_health_check key private_key_password
                             (decryptor_of request_decryptor)
                             (encryptor_of response_encryptor)) in
                      if is_flask_app (_server self)
                      then Ok [Route "POST" endpoint flow_request_handler]
                      else if is_fastapi_app (_server self)
                      then Ok [Route "POST" endpoint flow_request_handler]
                      else Ok []
                end
            end
      | None => Raise ValueError
      end
  end.

(** *** Registering the callback URL *)

(** [_VERIFY_TIMEOUT_SEC] *)
Definition _VERIFY_TIMEOUT_SEC : Z := 6.

(** [f"{callback_url.rstrip('/')}/{self._webhook_endpoint.lstrip('/')}"] *)
Definition full_url (callback_url webhook_endpoint : string) : string :=
  rstrip_slash callback_url ++ "/" ++ lstrip_slash webhook_endpoint.

(** What the registration does to the outside, in order. *)
Inductive step : Type :=
| Slept (seconds : Z)
| AskedAccessToken (app_id : Z) (app_secret : string)
| SetCallbackUrl (app_id : Z) (app_access_token : json) (callback_url verify_token : string)
    (fields : list string).

(** [tuple(fields or Handler._fields_to_subclasses().keys())]: the given
    fields, or for none (or an empty tuple) the names in the field table, here
    in the order in which the table enumerates them. *)
Definition subscribed_fields (fields : option (list string)) : list string :=
  match fields with
  | Some (f :: fs) => f :: fs
  | _ => (map_to_list _fields_to_subclasses).*1
  end.

(** [except WhatsAppError as e: raise RuntimeError(...) from e] *)
Definition wrap_WhatsAppError (e : exception) : exception :=
  if isinstance_WhatsAppError e then OtherException "RuntimeError" else e.

(** [register_callback_url]: what it did, and whether it returned or
    raised. *)
Definition register_callback_url (reg : Registration) : result unit * list step :=
  let url := full_url (reg_callback_url reg) (reg_webhook_endpoint reg) in
  let slept :=
    match reg_verify_timeout reg with
    | Some timeout =>
        if Z.ltb _VERIFY_TIMEOUT_SEC timeout then [Slept (timeout - _VERIFY_TIMEOUT_SEC)]
        else []
    | None => []
    end in
  let asked := slept ++ [AskedAccessToken (reg_app_id reg) (reg_app_secret reg)] in
  match token ← get_app_access_token (reg_app_id reg) (reg_app_secret reg);
        token.["access_token"] with
  | Raise e => (Raise (wrap_WhatsAppError e), asked)
  | Ok app_access_token =>
      let set :=
        asked ++ [SetCallbackUrl (reg_app_id reg) app_access_token url
                    (reg_verify_token reg) (subscribed_fields (reg_fields reg))] in
      match reply ← set_app_callback_url (reg_app_id reg) app_access_token url
                      (reg_verify_token reg) (subscribed_fields (reg_fields reg));
            reply.["success"] with
      | Raise e => (Raise (wrap_WhatsAppError e), set)
      | Ok success =>
          if truthy success then (Ok (), set)
          else (Raise (wrap_WhatsAppError (OtherException "RuntimeError")), set)
      end
  end.

End Server.

(** ** A client to run the server on *)

Module Sample.

(** The callbacks of the samples write their names into a journal. *)
Definition journal : Type := list string.

Definition fields : gmap string HandlerType :=
  <["account_alerts" := OtherHandler "AccountAlertsHandler"]> ∅.

(** The flow request of the samples is the decrypted dict. *)
Definition parse_request (decrypted_request _ : json) : result json := Ok decrypted_request.

Definition reports_error (request : json) : bool :=
  match contains request "error" with
  | Ok b => b
  | Raise _ => false
  end.

Definition version_of (request : json) : string :=
  match request.["version"] with
  | Ok (JStr v) => v
  | _ => ""
  end.

(** The package with the wire names of the message types; typed updates
    and flow responses are plain JSON. *)
Definition package : Package :=
  {| INTERACTIVE := "interactive";
     BUTTON := "button";
     REQUEST_WELCOME := "request_welcome";
     _fields_to_subclasses := fields;
     State := journal;
     Update := json;
     FlowRequest := json;
     FlowRequest_from_dict := parse_request;
     has_error := reports_error;
     version := version_of;
     FlowResponse := json;
     to_dict := id |}.

#[local] Existing Instance package.

(** A handler that returns. *)
Definition returning (name : string) : @Handler package :=
  @Build_Handler package (Some name) (λ _ (s : journal), (Ok (), s ++ [name])).

(** A handler that raises [e]. *)
Definition raising (name : string) (e : exception) : @Handler package :=
  @Build_Handler package (Some name) (λ _ (s : journal), (Raise e, s ++ [name])).

Definition broken : @Handler package := raising "broken" (OtherException "RuntimeError").
Definition stopper : @Handler package := raising "stopper" StopHandling.
Definition late : @Handler package := returning "late".
Definition raw_logger : @Handler package := returning "raw_logger".

(** Three message handlers and one raw-update handler. *)
Definition registry (category : HandlerType) : list (@Handler package) :=
  match category with
  | MessageHandler => [broken; stopper; late]
  | RawUpdateHandler => [raw_logger]
  | _ => []
  end.

Definition client (filter : bool) : @WhatsApp package :=
  {| filter_updates := filter; phone_id := "1550001"; _handlers := registry |}.

(** The typed update of the samples is the raw one. *)
Definition constructors : @Constructors package :=
  @Build_Constructors package (λ _ _ (update : json), Ok update).

Definition start : @world package := @Build_world package [] [].

(** A notification with one change. *)
Definition notification (field value : json) : json :=
  dict [("entry", JList [dict [("changes", JList [dict [("field", field); ("value", value)]])]])].

(** The value of a [messages] change with one message, sent to another
    phone number than the client's. *)
Definition one_message (message : json) : json :=
  dict [("metadata", dict [("phone_number_id", JStr "1550002")]);
        ("messages", JList [message])].

Definition interactive_message (interactive : json) : json :=
  dict [("type", JStr "interactive"); ("interactive", interactive)].

Definition text_update : json :=
  notification (JStr "messages") (one_message (dict [("type", JStr "text")])).

Definition unknown_reply_update : json :=
  notification (JStr "messages")
    (one_message (interactive_message (dict [("type", JStr "poll_reply")]))).

Definition new_field_update : json := notification (JStr "newfield") JNull.

(** *** A flow endpoint *)

(** The sample decryptor takes a dict for its own plaintext, and the
    sample encryptor names the reply it was given. *)
Definition decryptor (data _ _ : json) (_ : string) (_ : option string)
  : result (json * bytes * bytes) :=
  match data with
  | JDict _ => Ok (data, [], [])
  | _ => Raise (OtherException "InvalidTag")
  end.

Definition encryptor (reply : json) (_ _ : bytes) : result string :=
  match reply.["error_msg"] with
  | Ok (JStr message) => Ok ("sealed error_msg " ++ message)%string
  | _ =>
      match reply.["data"] with
      | Ok d =>
          match d.["acknowledged"], d.["status"] with
          | Ok _, _ => Ok "sealed acknowledged"
          | _, Ok _ => Ok "sealed status"
          | _, _ => Ok "sealed data"
          end
      | Raise _ => Ok "sealed reply"
      end
  end.

(** A callback that is a function, with its [__name__]. *)
Definition named (cb : json → journal → result (@response package) * journal)
  : @FlowRequestCallback package :=
  @Build_FlowRequestCallback package cb (Some "on_flow_request").

Definition flow_endpoint (cb : json → journal → result (@response package) * journal) : @FlowEndpoint package :=
  {| endpoint := "/flow";
     callback := named cb;
     acknowledge_errors := true;
     handle_health_check := true;
     private_key := "PRIVATE KEY";
     private_key_password := None;
     request_decryptor := decryptor;
     response_encryptor := encryptor |}.

Definition envelope (data : json) : json :=
  dict [("encrypted_flow_data", data);
        ("encrypted_aes_key", JStr "a2V5");
        ("initial_vector", JStr "aXY=")].

Definition ping_request : json :=
  dict [("version", JStr "3.0"); ("action", JStr "ping")].

Definition exchange_request : json :=
  dict [("version", JStr "3.0"); ("action", JStr "data_exchange");
        ("flow_token", JStr "t0k3n")].

Definition error_request : json :=
  dict [("version", JStr "3.0"); ("action", JStr "data_exchange");
        ("flow_token", JStr "t0k3n"); ("error", JStr "invalid-screen")].

Definition expired : exception := FlowTokenNoLongerValid "expired" 427.

Definition cb_raises (e : exception) (_ : json) (s : journal) : result (@response package) * journal :=
  (Raise e, s ++ ["callback"]).

Definition cb_returns (returned : @response package) (_ : json) (s : journal)
  : result (@response package) * journal :=
  (Ok returned, s ++ ["callback"]).

(** *** Setting up *)

(** The server objects of the samples are named by their framework, and
    the cryptography package is not installed. *)
Definition environment : Utils :=
  {| App := string;
     is_flask_app := λ app, bool_decide (app = "flask");
     is_fastapi_app := λ app, bool_decide (app = "fastapi");
     is_cryptography_installed := false;
     default_flow_request_decryptor := decryptor;
     default_flow_response_encryptor := encryptor |}.

(** An API that knows one app secret and accepts every callback URL. *)
Definition graph_api : Api :=
  {| get_app_access_token := λ _ secret,
       if bool_decide (secret = "dd6427d4") then Ok (dict [("access_token", JStr "a-token")])
       else Raise (OtherException "WhatsAppError");
     set_app_callback_url := λ _ _ _ _ _, Ok (dict [("success", JBool true)]);
     isinstance_WhatsAppError := λ e,
       match e with
       | OtherException name => bool_decide (name = "WhatsAppError")
       | _ => false
       end |}.

(** The arguments of the sample translator, with a custom decryptor and
    encryptor. *)
Definition server_args : @ServerArgs environment :=
  @Build_ServerArgs environment
    (Some "flask") "/webhook" (Some "https://still-kindly-chigger.ngrok-free.app/")
    None (Some 960188065899584) (Some "dd6427d4") (Some "038726584673") (Some 10)
    (Some "PRIVATE KEY") None (Some (Custom decryptor)) (Some (Custom encryptor)).

Definition listening : @Server environment :=
  @Build_Server environment "flask" "/webhook" (Some "PRIVATE KEY") None
    (Some (Custom decryptor)) (Some (Custom encryptor)).

Definition registration : Registration :=
  {| reg_callback_url := "https://still-kindly-chigger.ngrok-free.app/";
     reg_webhook_endpoint := "/webhook";
     reg_app_id := 960188065899584;
     reg_app_secret := "dd6427d4";
     reg_verify_token := "038726584673";
     reg_verify_timeout := Some 10;
     reg_fields := None |}.

(** A status notification, and a message notification without metadata. *)
Definition status_update : json :=
  notification (JStr "messages") (dict [("statuses", JList [])]).

Definition no_metadata_update : json :=
  notification (JStr "messages") (dict [("messages", JList [])]).

Definition list_reply_update : json :=
  notification (JStr "messages")
    (one_message (interactive_message (dict [("type", JStr "list_reply")]))).

Definition button_update : json :=
  notification (JStr "messages") (one_message (dict [("type", JStr "button")])).

Definition alerts_update : json := notification (JStr "account_alerts") JNull.

(** A client whose handlers all return, and a constructor that fails. *)
Definition quiet_registry (category : HandlerType) : list (@Handler package) :=
  match category with
  | MessageHandler => [returning "first"; returning "second"]
  | RawUpdateHandler => [raw_logger]
  | _ => []
  end.

Definition quiet_client : @WhatsApp package :=
  {| filter_updates := false; phone_id := "1550001"; _handlers := quiet_registry |}.

Definition failing_constructors : @Constructors package :=
  @Build_Constructors package (λ _ _ _, Raise (OtherException "ValidationError")).

(** A request that cannot be parsed, for a package whose flow requests need
    a flow token. *)
Definition strict_package : Package :=
  {| INTERACTIVE := "interactive";
     BUTTON := "button";
     REQUEST_WELCOME := "request_welcome";
     _fields_to_subclasses := fields;
     State := journal;
     Update := json;
     FlowRequest := json;
     FlowRequest_from_dict := λ decrypted_request _,
       token ← decrypted_request.["flow_token"]; Ok decrypted_request;
     has_error := reports_error;
     version := version_of;
     FlowResponse := json;
     to_dict := id |}.

(** The flow endpoint of the samples with a callback, for the package whose
    flow requests need a flow token, and with health checks not handled. *)
Definition strict_endpoint (cb : json → journal → result (@response strict_package) * journal)
  : @FlowEndpoint strict_package :=
  @Build_FlowEndpoint strict_package "/flow"
    (@Build_FlowRequestCallback strict_package cb (Some "on_flow_request"))
    true true "PRIVATE KEY" None decryptor encryptor.

Definition unchecked_endpoint (cb : json → journal → result (@response package) * journal)
  : @FlowEndpoint package :=
  @Build_FlowEndpoint package "/flow" (named cb) true false "PRIVATE KEY" None
    decryptor encryptor.

Definition tokenless_request : json :=
  dict [("version", JStr "3.0"); ("action", JStr "data_exchange")].

Definition done_screen : json := dict [("screen", JStr "DONE"); ("data", dict [])].

Definition done_response : @response package := @ReturnedFlowResponse package done_screen.

(** A handler whose callback is a [functools.partial], which has no
    [__name__], and raises; and a client with it registered before
    [late]. *)
Definition anonymous : @Handler package :=
  @Build_Handler package None
    (λ _ (s : journal), (Raise (OtherException "RuntimeError"), s ++ ["partial"])).

Definition partial_registry (category : HandlerType) : list (@Handler package) :=
  match category with
  | MessageHandler => [anonymous; late]
  | RawUpdateHandler => [raw_logger]
  | _ => []
  end.

Definition partial_client : @WhatsApp package :=
  {| filter_updates := false; phone_id := "1550001"; _handlers := partial_registry |}.

(** A notification whose field is a list. *)
Definition list_field_update : json := notification (JList []) JNull.

End Sample.

(** ** Properties *)

Section Properties.

Context `{pkg : Package} {constructors : Constructors} `{utils : Utils} `{api : Api}.

(** *** Subscripting *)

Lemma getitem_raises obj key e : obj.[key] = Raise e → is_lookup_error e = true.
Proof.
  destruct obj; simpl; try (intros [= <-]; reflexivity).
  destruct (d !! key); intros [= <-]; reflexivity.
Qed.

Lemma getindex_raises obj i e : obj.(i) = Raise e → is_lookup_error e = true.
Proof.
  destruct obj; simpl; try (intros [= <-]; reflexivity).
  - destruct (String.get i s); intros [= <-]; reflexivity.
  - destruct (l !! i); intros [= <-]; reflexivity.
Qed.

Lemma first_change_raises update e :
  first_change update = Raise e → is_lookup_error e = true.
Proof.
  unfold first_change.
  destruct (update.["entry"]) as [entries|e1] eqn:H1; simpl;
    [|intros [= <-]; exact (getitem_raises _ _ _ H1)].
  destruct (entries.(0)) as [entry|e2] eqn:H2; simpl;
    [|intros [= <-]; exact (getindex_raises _ _ _ H2)].
  destruct (entry.["changes"]) as [changes|e3] eqn:H3; simpl;
    [|intros [= <-]; exact (getitem_raises _ _ _ H3)].
  apply getindex_raises.
Qed.

(** A notification without a first change of a first entry is rejected
    with ValueError. *)
Lemma get_handler_malformed self update e :
  first_change update = Raise e → _get_handler self update = Raise ValueError.
Proof.
  intros H. unfold _get_handler, field_and_value. rewrite H. simpl.
  rewrite (first_change_raises _ _ H). reflexivity.
Qed.

(** The field and the value of a notification that has them. *)
Lemma field_and_value_ok update change field value :
  first_change update = Ok change →
  change.["field"] = Ok field →
  change.["value"] = Ok value →
  field_and_value update = Ok (field, value).
Proof.
  intros H1 H2 H3. unfold field_and_value. rewrite H1. simpl. rewrite H2. simpl.
  rewrite H3. reflexivity.
Qed.

(** *** The handler loop *)

Lemma goes_on_escapes handler o : goes_on handler o = true → escapes o = false.
Proof. destruct o as [|e]; simpl; [done|]. by destruct (isinstance_Exception e). Qed.

Lemma goes_on_raised_by handler o : goes_on handler o = true → raised_by handler o = None.
Proof.
  destruct o as [|e]; simpl; [done|].
  by destruct (isinstance_Exception e), (isinstance_StopHandling e), (has_name handler).
Qed.

(** What a loop raises for a handler that did not escape is an
    [Exception]: the AttributeError of the log call. *)
Lemma raised_by_caught handler o e :
  raised_by handler o = Some e → escapes o = false → isinstance_Exception e = true.
Proof.
  destruct o as [|e0]; simpl; [done|].
  destruct (isinstance_Exception e0); [|done].
  destruct (isinstance_StopHandling e0 || has_name handler); [done|]. by intros [= <-].
Qed.

Lemma loop_outcomes_nil d s : loop_outcomes [] d s [].
Proof. split; simpl; try done; intros i; intros; by destruct i. Qed.

Lemma loop_outcomes_last handler handlers d s o :
  (handle handler d s).1 = o → goes_on handler o = false →
  loop_outcomes (handler :: handlers) d s [o].
Proof.
  intros Hreal Hgo. split; simpl.
  - lia.
  - intros [|i] h o' Hh Ho; by simplify_eq/=.
  - done.
  - intros [|i] h o' Hh Ho; simplify_eq/=. congruence.
  - intros [|i] h o' Hh Ho; by simplify_eq/=.
Qed.

Lemma loop_outcomes_cons handler handlers d s o outcomes :
  (handle handler d s).1 = o → goes_on handler o = true →
  loop_outcomes handlers d (handle handler d s).2 outcomes →
  loop_outcomes (handler :: handlers) d s (o :: outcomes).
Proof.
  intros Hreal Hgo [Hlen Hre Hstart Hnext Hend]. split; simpl.
  - lia.
  - intros [|i] h o' Hh Ho; simplify_eq/=; [done|by eapply Hre].
  - done.
  - intros [|i] h o' Hh Ho Hgo' Hlt; simplify_eq/=.
    + destruct handlers as [|h' hs]; simpl in *; [lia|].
      destruct outcomes; [by destruct Hstart|simpl; lia].
    + apply (Hnext i h o') in Ho; [lia|done|done|lia].
  - intros [|i] h o' Hh Ho Hgo'; simplify_eq/=; [congruence|].
    f_equal. by eapply Hend.
Qed.

(** One loop calls its handlers as [loop_outcomes] says, each in the state
    that the one before it left; it completes unless the last handler it
    called made it raise. *)
Lemma for_each_handler_calls category d handlers w :
  ∃ outcomes,
    loop_outcomes handlers d (app w) outcomes ∧
    calls (for_each_handler category handlers d w).2 =
      calls w ++ loop_calls category handlers d outcomes ∧
    app (for_each_handler category handlers d w).2 =
      state_at handlers d (app w) (length outcomes) ∧
    match (for_each_handler category handlers d w).1 with
    | Ok _ =>
        ∀ i handler o,
          handlers !! i = Some handler → outcomes !! i = Some o → raised_by handler o = None
    | Raise e =>
        ∃ i handler o,
          handlers !! i = Some handler ∧ outcomes !! i = Some o ∧
          length outcomes = S i ∧ raised_by handler o = Some e
    end.
Proof.
  revert w. induction handlers as [|handler rest IH]; intros w.
  { exists []. split; [apply loop_outcomes_nil|]. simpl. rewrite app_nil_r.
    split; [done|]. split; [done|]. by intros []. }
  simpl. unfold call_handle.
  destruct (handle handler d (app w)) as [o s] eqn:Hh.
  assert (Hreal : (handle handler d (app w)).1 = o) by by rewrite Hh.
  assert (Hstate : (handle handler d (app w)).2 = s) by by rewrite Hh.
  set (w1 := {| app := s; calls := calls w ++ [Handled category handler d o] |}).
  assert (Hnext : goes_on handler o = true →
    ∃ outcomes,
      loop_outcomes (handler :: rest) d (app w) outcomes ∧
      calls (for_each_handler category rest d w1).2 =
        calls w ++ loop_calls category (handler :: rest) d outcomes ∧
      app (for_each_handler category rest d w1).2 =
        state_at (handler :: rest) d (app w) (length outcomes) ∧
      match (for_each_handler category rest d w1).1 with
      | Ok _ =>
          ∀ i h o',
            (handler :: rest) !! i = Some h → outcomes !! i = Some o' → raised_by h o' = None
      | Raise e =>
          ∃ i h o',
            (handler :: rest) !! i = Some h ∧ outcomes !! i = Some o' ∧
            length outcomes = S i ∧ raised_by h o' = Some e
      end).
  { intros Hgo. destruct (IH w1) as (outcomes & Hloop & Hcalls & Happ & Hres).
    exists (o :: outcomes). split.
    { eapply loop_outcomes_cons; [done|done|]. by rewrite Hstate. }
    split. { rewrite Hcalls. simpl. by rewrite <- app_assoc. }
    split. { simpl. by rewrite Hstate. }
    destruct (for_each_handler category rest d w1).1 as [|e].
    - intros [|i] h o' Hh' Ho'; simplify_eq/=; [by apply goes_on_raised_by|by eapply Hres].
    - destruct Hres as (i & h & o' & Hh' & Ho' & Hlen & Hraised).
      exists (S i), h, o'. simpl. by rewrite Hlen. }
  assert (Hlast : goes_on handler o = false →
    loop_outcomes (handler :: rest) d (app w) [o] ∧
    calls w1 = calls w ++ loop_calls category (handler :: rest) d [o] ∧
    app w1 = state_at (handler :: rest) d (app w) (length [o])).
  { intros Hgo. split; [by eapply loop_outcomes_last|].
    unfold loop_calls. subst w1. simpl. by rewrite zip_with_nil_r, Hstate. }
  destruct o as [[]|e]; [by apply Hnext|].
  destruct (isinstance_Exception e) eqn:Hexc.
  - destruct (isinstance_StopHandling e) eqn:Hstop.
    + exists [Raise e]. destruct Hlast as (Hloop & Hcalls & Happ).
      { simpl. by rewrite Hexc, Hstop. }
      split; [done|]. split; [done|]. split; [done|]. simpl.
      intros [|i] h o' Hh' Ho'; simplify_eq/=. by rewrite Hexc, Hstop.
    + destruct (callback_name handler) as [name|] eqn:Hname; simpl.
      * apply Hnext. simpl. unfold has_name. by rewrite Hexc, Hstop, Hname.
      * exists [Raise e]. destruct Hlast as (Hloop & Hcalls & Happ).
        { simpl. unfold has_name. by rewrite Hexc, Hstop, Hname. }
        split; [done|]. split; [done|]. split; [done|]. simpl.
        exists 0%nat, handler, (Raise e). simpl. unfold has_name.
        by rewrite Hexc, Hstop, Hname.
  - exists [Raise e]. destruct Hlast as (Hloop & Hcalls & Happ).
    { simpl. by rewrite Hexc. }
    split; [done|]. split; [done|]. split; [done|]. simpl.
    exists 0%nat, handler, (Raise e). simpl. by rewrite Hexc.
Qed.

(** *** The classifier *)

Lemma eq_str_true obj s : eq_str obj s = true → obj = JStr s.
Proof. destruct obj; simpl; try done. by intros ->%bool_decide_eq_true. Qed.

Lemma contains_key value key v : value.[key] = Ok v → contains value key = Ok true.
Proof.
  destruct value; simpl; try discriminate.
  destruct (d !! key); [reflexivity|discriminate].
Qed.

(** A sub-type outside the known set is no key of [_INTERACTIVE_TYPES]. *)
Lemma interactive_types_unknown name :
  name ∉ ["button_reply"; "list_reply"; "nfm_reply"] →
  _INTERACTIVE_TYPES !! name = None.
Proof.
  intros H. unfold _INTERACTIVE_TYPES.
  rewrite !lookup_insert_ne, lookup_empty; [done|set_solver..].
Qed.

(** The type [interactive] names no handler in [_MESSAGE_TYPES]. *)
Lemma message_types_interactive :
  INTERACTIVE ≠ BUTTON → INTERACTIVE ≠ REQUEST_WELCOME →
  _MESSAGE_TYPES !! INTERACTIVE = None.
Proof.
  intros H1 H2. unfold _MESSAGE_TYPES.
  by rewrite !lookup_insert_ne, lookup_empty.
Qed.

(** C6, as amended: for a notification with field "messages" that passes
    the recipient filter and whose first message has type interactive, the
    classifier yields the generic message category when the message has no
    [interactive] entry, when its [interactive] mapping has no [type] entry,
    and when the sub-type is there, is hashable and is none of
    button_reply, list_reply and nfm_reply. *)
Theorem get_handler_interactive_fallback
    self update change field value messages message msg_type :
  INTERACTIVE ≠ BUTTON → INTERACTIVE ≠ REQUEST_WELCOME →
  first_change update = Ok change →
  change.["field"] = Ok field →
  change.["value"] = Ok value →
  eq_str field "messages" = true →
  for_this_phone self value = Ok true →
  value.["messages"] = Ok messages →
  messages.(0) = Ok message →
  message.["type"] = Ok msg_type →
  eq_str msg_type INTERACTIVE = true →
  (message.["interactive"] = Raise KeyError
   ∨ (∃ interactive,
        message.["interactive"] = Ok interactive ∧
        interactive.["type"] = Raise KeyError)
   ∨ (∃ interactive interactive_type,
        message.["interactive"] = Ok interactive ∧
        interactive.["type"] = Ok interactive_type ∧
        hashable interactive_type = true ∧
        ∀ name, interactive_type = JStr name →
                name ∉ ["button_reply"; "list_reply"; "nfm_reply"])) →
  _get_handler self update = Ok (Some MessageHandler).
Proof.
  intros Hb Hw Hc Hf Hv Hfield Hours Hms Hm Ht Hi Hsub.
  unfold _get_handler. rewrite (field_and_value_ok _ _ _ _ Hc Hf Hv). simpl.
  rewrite Hfield, Hours. simpl. rewrite (contains_key _ _ _ Hms). simpl.
  unfold message_handler, interactive_type_of. rewrite Hms. simpl. rewrite Hm. simpl.
  rewrite Ht. simpl. rewrite Hi.
  apply eq_str_true in Hi as ->.
  destruct Hsub as [Hno|[(i & Hint & Hno)|(i & st & Hint & Hst & Hhash & Hun)]].
  - by rewrite Hno.
  - rewrite Hint. simpl. by rewrite Hno.
  - rewrite Hint. simpl. rewrite Hst.
    assert (Hnone : dict_get _INTERACTIVE_TYPES st = Ok None).
    { destruct st; simpl in *; try done.
      by rewrite (interactive_types_unknown s (Hun s eq_refl)). }
    rewrite Hnone. simpl. by rewrite (message_types_interactive Hb Hw).
Qed.

(** *** The dispatch engine *)

(** C1, as amended: for every raw notification from which the classifier
    cannot extract the first entry's first change, classification fails
    with ValueError and dispatch returns at once: it runs no category
    handler and no raw-update handler, and leaves the world as it was. *)
Theorem call_handlers_malformed self update e w :
  first_change update = Raise e →
  _get_handler self update = Raise ValueError ∧
  _call_handlers self update w = (Ok (), w).
Proof.
  intros H. split; [by eapply get_handler_malformed|].
  unfold _call_handlers. by rewrite (get_handler_malformed self _ _ H).
Qed.


(** C7, as amended: for every notification that has a field and a value,
    whose field is hashable, is not "messages" and is no key of the field
    table, the classifier yields none without raising, and the dispatch is
    the raw loop alone: every call it makes is a raw-update handler called
    with the raw notification, in registration order. *)
Theorem call_handlers_unknown_field self update change field value w :
  first_change update = Ok change →
  change.["field"] = Ok field →
  change.["value"] = Ok value →
  hashable field = true →
  eq_str field "messages" = false →
  (∀ name, field = JStr name → _fields_to_subclasses !! name = None) →
  _get_handler self update = Ok None ∧
  _call_handlers self update w =
    for_each_handler RawUpdateHandler (_handlers self RawUpdateHandler) (RawUpdate update) w ∧
  ∃ raw_outcomes,
    loop_outcomes (_handlers self RawUpdateHandler) (RawUpdate update) (app w)
      raw_outcomes ∧
    calls (_call_handlers self update w).2 =
      calls w ++ loop_calls RawUpdateHandler (_handlers self RawUpdateHandler)
                   (RawUpdate update) raw_outcomes.
Proof.
  intros Hc Hf Hv Hhash Hne Htable.
  assert (Hget : _get_handler self update = Ok None).
  { unfold _get_handler. rewrite (field_and_value_ok _ _ _ _ Hc Hf Hv). simpl.
    rewrite Hne. destruct field; simpl in *; try done.
    by rewrite (Htable s). }
  assert (Hrun : _call_handlers self update w =
    for_each_handler RawUpdateHandler (_handlers self RawUpdateHandler) (RawUpdate update) w).
  { unfold _call_handlers. by rewrite Hget. }
  split; [done|]. split; [done|]. rewrite Hrun.
  destruct (for_each_handler_calls RawUpdateHandler (RawUpdate update)
              (_handlers self RawUpdateHandler) w) as (raw & Hraw & Hrcalls & _).
  by exists raw.
Qed.

(** *** The verification handshake *)

(** C9: a received token equal to the configured verify token is answered
    with the received challenge and 200, any other with the fixed error
    body and 403. *)
Theorem challenge_handler_answer verify_token vt ch :
  (vt = Some verify_token → challenge_handler verify_token vt ch = (ch, 200)) ∧
  (vt ≠ Some verify_token →
   challenge_handler verify_token vt ch = (Some "Error, invalid verification token", 403)).
Proof.
  unfold challenge_handler. split; intros H.
  - by rewrite bool_decide_eq_true_2.
  - by rewrite bool_decide_eq_false_2.
Qed.

(** *** The encrypted flow endpoint *)

(** C3: when reading the payload or the decryptor raises an error, the
    handler answers "Decryption failed" in plain text with status 421 and
    leaves the world as it was: the callback is not called. *)
Theorem flow_decryption_failed ep payload e w :
  decrypt ep payload = Raise e →
  isinstance_Exception e = true →
  flow_request_handler ep payload w = (Ok ("Decryption failed", 421), w) ∧
  calls (flow_request_handler ep payload w).2 = calls w.
Proof.
  intros Hd He. unfold flow_request_handler. by rewrite Hd, He.
Qed.

(** C5: a decrypted request with action "ping", with health checks
    handled, is answered with the encrypted mapping of its version and
    [{"status": "active"}] and status 200, and the world is left as it
    was: the callback is not called. *)
Theorem flow_health_check ep payload decrypted_request aes_key iv v body w :
  decrypt ep payload = Ok (decrypted_request, aes_key, iv) →
  handle_health_check ep = true →
  decrypted_request.["action"] = Ok (JStr "ping") →
  decrypted_request.["version"] = Ok v →
  response_encryptor ep
    (dict [("version", v); ("data", dict [("status", JStr "active")])]) aes_key iv
    = Ok body →
  flow_request_handler ep payload w = (Ok (body, 200), w) ∧
  calls (flow_request_handler ep payload w).2 = calls w.
Proof.
  intros Hd Hh Ha Hv Henc.
  assert (H : flow_request_handler ep payload w = (Ok (body, 200), w)).
  { unfold flow_request_handler, is_ping. rewrite Hd, Hh, Ha. simpl.
    unfold mbind, M_bind, eval, encrypted. rewrite Hv.
    unfold mbind, M_bind, eval. by rewrite Henc. }
  by rewrite H.
Qed.

(** The handler from the point where the callback is reached. *)
Lemma flow_request_handler_answer ep payload decrypted_request aes_key iv request w :
  decrypt ep payload = Ok (decrypted_request, aes_key, iv) →
  is_ping ep decrypted_request = Ok false →
  FlowRequest_from_dict decrypted_request payload = Ok request →
  flow_request_handler ep payload w = answer ep request aes_key iv w.
Proof.
  intros Hd Hp Hr. unfold flow_request_handler. by rewrite Hd, Hp, Hr.
Qed.

(** C8: when the callback raises FlowTokenNoLongerValid, the handler
    answers with the encrypted mapping of the error's message under
    [error_msg] and with the error's status code. *)
Theorem flow_token_no_longer_valid
    ep payload decrypted_request aes_key iv request error_message status_code s body w :
  decrypt ep payload = Ok (decrypted_request, aes_key, iv) →
  is_ping ep decrypted_request = Ok false →
  FlowRequest_from_dict decrypted_request payload = Ok request →
  callback ep request (app w) = (Raise (FlowTokenNoLongerValid error_message status_code), s) →
  response_encryptor ep (dict [("error_msg", JStr error_message)]) aes_key iv = Ok body →
  flow_request_handler ep payload w =
    (Ok (body, status_code), {| app := s; calls := calls w ++ [FlowCallback request] |}).
Proof.
  intros Hd Hp Hr Hcb Henc.
  rewrite (flow_request_handler_answer _ _ _ _ _ _ _ Hd Hp Hr).
  unfold answer, call_or_raise, call_callback, mbind, M_bind. rewrite Hcb.
  unfold encrypted, mbind, M_bind, eval. by rewrite Henc.
Qed.

(** C4, as amended: with acknowledge-errors on and a request that reports
    an error, whatever the callback returned, unless it is a flow response
    error, the handler answers with the encrypted mapping of the request's
    version and [{"acknowledged": true}] and status 200. *)
Theorem flow_acknowledge_errors
    ep payload decrypted_request aes_key iv request returned s body w :
  decrypt ep payload = Ok (decrypted_request, aes_key, iv) →
  is_ping ep decrypted_request = Ok false →
  FlowRequest_from_dict decrypted_request payload = Ok request →
  acknowledge_errors ep = true →
  has_error request = true →
  callback ep request (app w) = (Ok returned, s) →
  (∀ e, returned = ReturnedException e → isinstance_FlowResponseError e = false) →
  response_encryptor ep
    (dict [("version", JStr (version request));
           ("data", dict [("acknowledged", JBool true)])]) aes_key iv
    = Ok body →
  flow_request_handler ep payload w =
    (Ok (body, 200), {| app := s; calls := calls w ++ [FlowCallback request] |}).
Proof.
  intros Hd Hp Hr Hack Herr Hcb Hnot Henc.
  rewrite (flow_request_handler_answer _ _ _ _ _ _ _ Hd Hp Hr).
  unfold answer, call_or_raise, call_callback, mbind, M_bind. rewrite Hcb.
  assert (Hret : ∀ w',
    match returned with
    | ReturnedException e =>
        if isinstance_FlowResponseError e then eval (Raise e) else mret returned
    | _ => mret returned
    end w' = (Ok returned, w')).
  { intros w'. destruct returned as [| |e|]; try done. by rewrite (Hnot e eq_refl). }
  rewrite Hret, Hack, Herr. simpl.
  unfold encrypted, mbind, M_bind, eval. by rewrite Henc.
Qed.

(** C10: a flow response error that the callback returns is answered as
    if the callback had raised it: FlowTokenNoLongerValid with the
    encrypted [error_msg] mapping and its status code, any other with its
    class name in plain text and its status code. *)
Theorem flow_returned_error_as_raised
    ep payload decrypted_request aes_key iv request e s w :
  decrypt ep payload = Ok (decrypted_request, aes_key, iv) →
  is_ping ep decrypted_request = Ok false →
  FlowRequest_from_dict decrypted_request payload = Ok request →
  callback ep request (app w) = (Ok (ReturnedException e), s) →
  isinstance_FlowResponseError e = true →
  let w' := {| app := s; calls := calls w ++ [FlowCallback request] |} in
  flow_request_handler ep payload w =
    flow_request_handler (with_callback ep (λ _ _, (Raise e, s))) payload w ∧
  (∀ error_message status_code body,
     e = FlowTokenNoLongerValid error_message status_code →
     response_encryptor ep (dict [("error_msg", JStr error_message)]) aes_key iv = Ok body →
     flow_request_handler ep payload w = (Ok (body, status_code), w')) ∧
  (isinstance_FlowTokenNoLongerValid e = false →
   flow_request_handler ep payload w = (Ok (class_name_of e, status_code_of e), w')).
Proof.
  intros Hd Hp Hr Hcb He w'.
  rewrite (flow_request_handler_answer _ _ _ _ _ _ _ Hd Hp Hr).
  rewrite (flow_request_handler_answer (with_callback ep _) _ _ _ _ _ _ Hd Hp Hr).
  unfold answer, call_or_raise, call_callback, mbind, M_bind. simpl. rewrite Hcb, He.
  unfold eval. fold w'. split; [|split].
  - by destruct e.
  - intros m c body -> Henc. unfold encrypted, mbind, M_bind, eval. by rewrite Henc.
  - intros Hno. by destruct e.
Qed.

(** *** More on the classifier *)

Lemma lookup_error_invalid e : is_lookup_error e = true → is_invalid_update_error e = true.
Proof. by destruct e. Qed.

Lemma bind_raises {A B : Type} (r : result A) (f : A → result B) e :
  r ≫= f = Raise e → r = Raise e ∨ ∃ a, r = Ok a ∧ f a = Raise e.
Proof. destruct r as [a|e']; simpl; [right; by exists a|left; congruence]. Qed.

Lemma contains_raises obj key e : contains obj key = Raise e → e = TypeError.
Proof. destruct obj; simpl; congruence. Qed.

Lemma dict_get_raises {A : Type} (table : gmap string A) key e :
  dict_get table key = Raise e → e = TypeError.
Proof. destruct key; simpl; congruence. Qed.

Lemma field_and_value_raises update e : field_and_value update = Raise e → e = ValueError.
Proof.
  unfold field_and_value.
  destruct (first_change update) as [change|e1] eqn:Hc; simpl.
  - destruct (change.["field"]) as [field|e2] eqn:Hf; simpl.
    + destruct (change.["value"]) as [value|e3] eqn:Hv; simpl; [done|].
      rewrite (getitem_raises _ _ _ Hv). congruence.
    + rewrite (getitem_raises _ _ _ Hf). congruence.
  - rewrite (first_change_raises _ _ Hc). congruence.
Qed.

Lemma for_this_phone_raises self value e :
  for_this_phone self value = Raise e → is_lookup_error e = true.
Proof.
  unfold for_this_phone. destruct (negb (filter_updates self)); [done|].
  intros [H|(m & Hm & [H|(p & Hp & H)]%bind_raises)]%bind_raises;
    eauto using getitem_raises. done.
Qed.

Lemma interactive_type_of_raises value e :
  interactive_type_of value = Raise e → is_lookup_error e = true.
Proof.
  unfold interactive_type_of.
  intros [H|(ms & _ & [H|(m0 & _ & [H|(i & _ & H)]%bind_raises)]%bind_raises)]%bind_raises;
    eauto using getitem_raises, getindex_raises.
Qed.

Lemma message_handler_raises value e :
  message_handler value = Raise e → is_invalid_update_error e = true.
Proof.
  unfold message_handler.
  intros [H|(ms & _ & [H|(m0 & _ & [H|(msg_type & _ & H)]%bind_raises)]%bind_raises)]%bind_raises;
    eauto using lookup_error_invalid, getitem_raises, getindex_raises.
  assert (Hfallback : ∀ e',
    (h ← dict_get_default _MESSAGE_TYPES msg_type MessageHandler; Ok (Some h)) = Raise e' →
    is_invalid_update_error e' = true).
  { unfold dict_get_default.
    intros e' [[H'|(h & _ & H')]%bind_raises|(h & _ & H')]%bind_raises; try done.
    by rewrite (dict_get_raises _ _ _ H'). }
  destruct (eq_str msg_type INTERACTIVE); [|by apply Hfallback].
  destruct (interactive_type_of value) as [interactive_type|e'] eqn:Hi.
  - apply bind_raises in H as [H|([h|] & _ & H)]; [|done|by apply Hfallback].
    by rewrite (dict_get_raises _ _ _ H).
  - apply interactive_type_of_raises in Hi. destruct e'; simplify_eq/=; done.
Qed.

(** Whatever the classifier raises is one of the four errors that
    [_call_handlers] catches. *)
Lemma get_handler_raises self update e :
  _get_handler self update = Raise e → is_invalid_update_error e = true.
Proof.
  unfold _get_handler.
  intros [H|([field value] & _ & H)]%bind_raises.
  { by rewrite (field_and_value_raises _ _ H). }
  destruct (eq_str field "messages").
  - apply bind_raises in H as [H|(ours & _ & H)].
    { eauto using lookup_error_invalid, for_this_phone_raises. }
    destruct ours; [|done].
    apply bind_raises in H as [H|(has_messages & _ & H)].
    { by rewrite (contains_raises _ _ _ H). }
    destruct has_messages; [by eapply message_handler_raises|].
    apply bind_raises in H as [H|(has_statuses & _ & H)].
    { by rewrite (contains_raises _ _ _ H). }
    by destruct has_statuses.
  - by rewrite (dict_get_raises _ _ _ H).
Qed.

(** X1: an update that the classifier rejects, at whatever point, is
    dropped: the dispatch returns normally, calls no handler of any kind and
    leaves the world as it was. *)
Theorem call_handlers_rejected self update e w :
  _get_handler self update = Raise e →
  is_invalid_update_error e = true ∧
  _call_handlers self update w = (Ok (), w).
Proof.
  intros H. pose proof (get_handler_raises _ _ _ H) as He.
  split; [done|]. unfold _call_handlers. by rewrite H, He.
Qed.

(** A [messages] notification that passes the recipient filter and has a
    [messages] entry is classified by its first message. *)
Lemma get_handler_message_branch self update change field value messages :
  first_change update = Ok change →
  change.["field"] = Ok field →
  change.["value"] = Ok value →
  eq_str field "messages" = true →
  for_this_phone self value = Ok true →
  value.["messages"] = Ok messages →
  _get_handler self update = message_handler value.
Proof.
  intros Hc Hf Hv Hfield Hours Hms.
  unfold _get_handler. rewrite (field_and_value_ok _ _ _ _ Hc Hf Hv). simpl.
  rewrite Hfield, Hours. simpl. by rewrite (contains_key _ _ _ Hms).
Qed.

(** X2: an interactive message whose sub-type is button_reply, list_reply
    or nfm_reply goes to the callback-button, callback-selection or
    flow-completion handlers. *)
Theorem get_handler_interactive_known
    self update change field value messages message msg_type interactive name h :
  first_change update = Ok change →
  change.["field"] = Ok field →
  change.["value"] = Ok value →
  eq_str field "messages" = true →
  for_this_phone self value = Ok true →
  value.["messages"] = Ok messages →
  messages.(0) = Ok message →
  message.["type"] = Ok msg_type →
  eq_str msg_type INTERACTIVE = true →
  message.["interactive"] = Ok interactive →
  interactive.["type"] = Ok (JStr name) →
  (name, h) ∈ [("button_reply", CallbackButtonHandler);
               ("list_reply", CallbackSelectionHandler);
               ("nfm_reply", FlowCompletionHandler)] →
  _get_handler self update = Ok (Some h).
Proof.
  intros Hc Hf Hv Hfield Hours Hms Hm Ht Hi Hint Hst Hin.
  rewrite (get_handler_message_branch _ _ _ _ _ _ Hc Hf Hv Hfield Hours Hms).
  unfold message_handler, interactive_type_of. rewrite Hms. simpl. rewrite Hm. simpl.
  rewrite Ht. simpl. rewrite Hi, Hint. simpl. rewrite Hst. simpl.
  assert (Hlook : _INTERACTIVE_TYPES !! name = Some h).
  { repeat (apply elem_of_cons in Hin as [[= -> ->]|Hin]; [reflexivity|]).
    by apply elem_of_nil in Hin. }
  by rewrite Hlook.
Qed.

(** What [_MESSAGE_TYPES.get(msg_type, MessageHandler)] yields for a
    hashable type. *)
Lemma message_types_get msg_type :
  hashable msg_type = true →
  dict_get_default _MESSAGE_TYPES msg_type MessageHandler =
    Ok (if eq_str msg_type REQUEST_WELCOME then ChatOpenedHandler
        else if eq_str msg_type BUTTON then CallbackButtonHandler
        else MessageHandler).
Proof.
  intros Hhash. unfold dict_get_default, _MESSAGE_TYPES.
  destruct msg_type; simpl in *; try done.
  rewrite !lookup_insert, lookup_empty.
  repeat case_decide; repeat case_bool_decide; simplify_eq/=; done.
Qed.

(** X3: a message of any hashable type other than interactive is
    classified by its type alone: chat-opened for the request-welcome type,
    callback-button for the button type, the generic message category for
    every other type; never none. *)
Theorem get_handler_message_type
    self update change field value messages message msg_type :
  first_change update = Ok change →
  change.["field"] = Ok field →
  change.["value"] = Ok value →
  eq_str field "messages" = true →
  for_this_phone self value = Ok true →
  value.["messages"] = Ok messages →
  messages.(0) = Ok message →
  message.["type"] = Ok msg_type →
  eq_str msg_type INTERACTIVE = false →
  hashable msg_type = true →
  _get_handler self update =
    Ok (Some (if eq_str msg_type REQUEST_WELCOME then ChatOpenedHandler
              else if eq_str msg_type BUTTON then CallbackButtonHandler
              else MessageHandler)).
Proof.
  intros Hc Hf Hv Hfield Hours Hms Hm Ht Hi Hhash.
  rewrite (get_handler_message_branch _ _ _ _ _ _ Hc Hf Hv Hfield Hours Hms).
  unfold message_handler. rewrite Hms. simpl. rewrite Hm. simpl. rewrite Ht. simpl.
  rewrite Hi. by rewrite (message_types_get _ Hhash).
Qed.

(** X4: a [messages] notification that passes the recipient filter and
    whose value has no [messages] entry is a status update when the value
    has a [statuses] entry, whatever that entry holds, and is classified as
    none otherwise. *)
Theorem get_handler_statuses self update change field (d : gmap string json) :
  first_change update = Ok change →
  change.["field"] = Ok field →
  change.["value"] = Ok (JDict d) →
  eq_str field "messages" = true →
  for_this_phone self (JDict d) = Ok true →
  d !! "messages" = None →
  _get_handler self update =
    match d !! "statuses" with
    | Some _ => Ok (Some MessageStatusHandler)
    | None => Ok None
    end.
Proof.
  intros Hc Hf Hv Hfield Hours Hno.
  unfold _get_handler. rewrite (field_and_value_ok _ _ _ _ Hc Hf Hv). simpl.
  rewrite Hfield, Hours. simpl. rewrite Hno. simpl.
  by destruct (d !! "statuses").
Qed.

(** X5: with the recipient filter on, a [messages] notification for
    another phone number is classified as none without a look at its
    messages or statuses, so nothing in them can make classification fail;
    the dispatch is then the raw loop alone. *)
Theorem call_handlers_other_recipient self update change field value metadata recipient w :
  first_change update = Ok change →
  change.["field"] = Ok field →
  change.["value"] = Ok value →
  eq_str field "messages" = true →
  filter_updates self = true →
  value.["metadata"] = Ok metadata →
  metadata.["phone_number_id"] = Ok recipient →
  eq_str recipient (phone_id self) = false →
  _get_handler self update = Ok None ∧
  _call_handlers self update w =
    for_each_handler RawUpdateHandler (_handlers self RawUpdateHandler) (RawUpdate update) w.
Proof.
  intros Hc Hf Hv Hfield Hfilter Hm Hp Hne.
  assert (Hget : _get_handler self update = Ok None).
  { unfold _get_handler. rewrite (field_and_value_ok _ _ _ _ Hc Hf Hv). simpl.
    rewrite Hfield. unfold for_this_phone. rewrite Hfilter. simpl.
    rewrite Hm. simpl. rewrite Hp. simpl. by rewrite Hne. }
  split; [done|]. unfold _call_handlers. by rewrite Hget.
Qed.

Lemma interactive_types_range name h :
  _INTERACTIVE_TYPES !! name = Some h →
  h ∈ [CallbackButtonHandler; CallbackSelectionHandler; FlowCompletionHandler].
Proof.
  unfold _INTERACTIVE_TYPES. rewrite !lookup_insert, lookup_empty.
  repeat case_decide; intros [= <-]; rewrite !elem_of_cons; auto 10.
Qed.

Lemma message_types_range name h :
  _MESSAGE_TYPES !! name = Some h → h ∈ [CallbackButtonHandler; ChatOpenedHandler].
Proof.
  unfold _MESSAGE_TYPES. rewrite !lookup_insert, lookup_empty.
  repeat case_decide; intros [= <-]; rewrite !elem_of_cons; auto 10.
Qed.

Lemma message_handler_range value h :
  message_handler value = Ok (Some h) → h ∈ message_categories.
Proof.
  unfold message_handler, message_categories.
  destruct (value.["messages"]) as [ms|]; simpl; [|done].
  destruct (ms.(0)) as [m0|]; simpl; [|done].
  destruct (m0.["type"]) as [msg_type|]; simpl; [|done].
  assert (Hfallback : ∀ h',
    (h ← dict_get_default _MESSAGE_TYPES msg_type MessageHandler; Ok (Some h)) = Ok (Some h') →
    h' ∈ message_categories).
  { unfold dict_get_default, message_categories. intros h'.
    destruct (dict_get _MESSAGE_TYPES msg_type) as [[h0|]|] eqn:Hget; simpl; intros [= <-].
    - destruct msg_type; try discriminate. injection Hget as Hget.
      apply message_types_range in Hget. revert Hget.
      rewrite !elem_of_cons. intros [->|[->|[]%elem_of_nil]]; auto 10.
    - rewrite !elem_of_cons. auto 10. }
  destruct (eq_str msg_type INTERACTIVE); [|apply Hfallback].
  destruct (interactive_type_of value) as [interactive_type|[]]; try done.
  - destruct (dict_get _INTERACTIVE_TYPES interactive_type) as [[h0|]|] eqn:Hget; simpl;
      [|apply Hfallback|done].
    intros [= <-]. destruct interactive_type; try discriminate. injection Hget as Hget.
    apply interactive_types_range in Hget. revert Hget.
    rewrite !elem_of_cons. intros [->|[->|[->|[]%elem_of_nil]]]; auto 10.
  - intros [= <-]. rewrite !elem_of_cons. auto 10.
Qed.

(** X6: whatever category a notification with field "messages" is given is
    one of the six message categories; the field table is not consulted
    for it, and it is never the raw-update category. *)
Theorem get_handler_messages_range self update field value h :
  field_and_value update = Ok (field, value) →
  eq_str field "messages" = true →
  _get_handler self update = Ok (Some h) →
  h ∈ message_categories.
Proof.
  intros Hfv Hfield. unfold _get_handler. rewrite Hfv. simpl. rewrite Hfield.
  destruct (for_this_phone self value) as [[]|]; simpl; try done.
  destruct (contains value "messages") as [[]|]; simpl; try done.
  { apply message_handler_range. }
  destruct (contains value "statuses") as [[]|]; simpl; try done.
  intros [= <-]. unfold message_categories. rewrite !elem_of_cons. auto 10.
Qed.

(** X7: a notification with a field name other than "messages" is given
    the category that the field table holds for the name, and its value is
    not looked at. *)
Theorem get_handler_field_table self update change name value :
  first_change update = Ok change →
  change.["field"] = Ok (JStr name) →
  change.["value"] = Ok value →
  name ≠ "messages" →
  _get_handler self update = Ok (_fields_to_subclasses !! name).
Proof.
  intros Hc Hf Hv Hne.
  unfold _get_handler. rewrite (field_and_value_ok _ _ _ _ Hc Hf Hv). simpl.
  by rewrite bool_decide_eq_false_2.
Qed.

(** *** More on the dispatch engine *)

(** X8: when the update cannot be constructed, the handlers of the
    category are skipped and the raw-update handlers still run: the dispatch
    is the raw loop alone. *)
Theorem call_handlers_construction_failed self update handler_type e w :
  _get_handler self update = Ok (Some handler_type) →
  _update_constructor handler_type self update = Raise e →
  isinstance_Exception e = true →
  _call_handlers self update w =
    for_each_handler RawUpdateHandler (_handlers self RawUpdateHandler) (RawUpdate update) w.
Proof.
  intros Hget Hcons He. unfold _call_handlers. rewrite Hget.
  unfold mbind, M_bind, try_except_Exception, eval. by rewrite Hcons, He.
Qed.

(** What a loop over handlers that raise nothing but [Exception]s raises
    is an [Exception]. *)
Lemma for_each_handler_caught category handlers d w e :
  (∀ handler s e s',
     handler ∈ handlers → handle handler d s = (Raise e, s') →
     isinstance_Exception e = true) →
  (for_each_handler category handlers d w).1 = Raise e →
  isinstance_Exception e = true.
Proof.
  intros Hexc Hrun.
  destruct (for_each_handler_calls category d handlers w)
    as (outcomes & Hloop & _ & _ & Hres).
  rewrite Hrun in Hres. destruct Hres as (i & handler & o & Hh & Ho & _ & Hraised).
  apply (raised_by_caught handler o e Hraised).
  destruct o as [|e0]; [done|]. simpl.
  pose proof (loop_real _ _ _ _ Hloop i handler (Raise e0) Hh Ho) as Hreal.
  destruct (handle handler d (state_at handlers d (app w) i)) as [o' s'] eqn:Hcall.
  simpl in Hreal. subst o'.
  by rewrite (Hexc handler _ e0 s' (list_elem_of_lookup_2 _ _ _ Hh) Hcall).
Qed.

(** A loop over handlers that raise nothing but [Exception]s, and whose
    callbacks have a name when they raise anything but StopHandling,
    completes. *)
Lemma for_each_handler_completes category handlers d w :
  (∀ handler s e s',
     handler ∈ handlers → handle handler d s = (Raise e, s') →
     isinstance_Exception e = true ∧
     (isinstance_StopHandling e = false → is_Some (callback_name handler))) →
  (for_each_handler category handlers d w).1 = Ok ().
Proof.
  revert w. induction handlers as [|handler rest IH]; intros w Hexc; [done|].
  assert (Hrest : ∀ w', (for_each_handler category rest d w').1 = Ok ()).
  { intros w'. apply IH. intros h s e s' Hin. apply Hexc. by apply list_elem_of_further. }
  simpl. unfold call_handle.
  destruct (handle handler d (app w)) as [[[]|e] s] eqn:Hh; [apply Hrest|].
  destruct (Hexc handler (app w) e s (list_elem_of_here _ _) Hh) as [-> Hname].
  destruct (isinstance_StopHandling e); [done|].
  destruct (Hname eq_refl) as [name ->]. apply Hrest.
Qed.

(** X9: as long as the registered handlers and the update constructor raise
    nothing outside [Exception], and the callback of every raw-update handler
    that raises anything but StopHandling has a name for the log, the
    dispatch returns normally on every update whatsoever: no malformed
    notification, failed construction or failing handler makes it raise, a
    handler of the category whose error cannot be logged included. *)
Theorem call_handlers_never_raises self update w :
  (∀ category handler d s e s',
     handler ∈ _handlers self category → handle handler d s = (Raise e, s') →
     isinstance_Exception e = true) →
  (∀ handler d s e s',
     handler ∈ _handlers self RawUpdateHandler → handle handler d s = (Raise e, s') →
     isinstance_StopHandling e = false → is_Some (callback_name handler)) →
  (∀ category e,
     _update_constructor category self update = Raise e → isinstance_Exception e = true) →
  (_call_handlers self update w).1 = Ok ().
Proof.
  intros Hh Hname Hc.
  assert (Hraw : ∀ w',
    (for_each_handler RawUpdateHandler (_handlers self RawUpdateHandler)
       (RawUpdate update) w').1 = Ok ()).
  { intros w'. apply for_each_handler_completes. intros handler s e s' Hin Hcall.
    split; [by eapply Hh|by eapply Hname]. }
  unfold _call_handlers.
  destruct (_get_handler self update) as [[handler_type|]|e] eqn:Hget.
  - unfold mbind, M_bind, try_except_Exception, eval.
    destruct (_update_constructor handler_type self update) as [u|e] eqn:Hcons.
    + pose proof (for_each_handler_caught handler_type (_handlers self handler_type)
                    (Constructed u) w) as Hcaught.
      destruct (for_each_handler handler_type (_handlers self handler_type) (Constructed u) w)
        as [[[]|e] w1]; [apply Hraw|].
      rewrite (Hcaught e); [apply Hraw| |done].
      intros handler s e' s'. apply Hh.
    + rewrite (Hc _ _ Hcons). simpl. apply Hraw.
  - unfold mbind, M_bind. simpl. apply Hraw.
  - by rewrite (get_handler_raises _ _ _ Hget).
Qed.

(** The calls that a loop adds are calls of its handlers with its
    argument. *)
Lemma for_each_handler_calls_of category handlers d w ev :
  ev ∈ calls (for_each_handler category handlers d w).2 →
  ev ∈ calls w ∨ ∃ handler outcome, ev = Handled category handler d outcome ∧ handler ∈ handlers.
Proof.
  destruct (for_each_handler_calls category d handlers w) as (outcomes & _ & -> & _).
  rewrite elem_of_app. intros [Hin|Hin]; [by left|right].
  unfold loop_calls in Hin. apply elem_of_lookup_zip_with in Hin
    as (i & handler & outcome & -> & Hh & _).
  exists handler, outcome. split; [done|]. by eapply list_elem_of_lookup_2.
Qed.

(** X10: every call that the dispatch makes is either a raw-update handler
    of the registry called with the raw notification, or a handler that the
    registry holds for the category the classifier found, called with the
    update constructed for that category.  No other handler is ever
    called. *)
Theorem call_handlers_calls_of self update w ev :
  ev ∈ calls (_call_handlers self update w).2 →
  ev ∈ calls w ∨
  ∃ category handler d outcome,
    ev = Handled category handler d outcome ∧
    handler ∈ _handlers self category ∧
    ((category = RawUpdateHandler ∧ d = RawUpdate update) ∨
     (_get_handler self update = Ok (Some category) ∧
      ∃ u, _update_constructor category self update = Ok u ∧ d = Constructed u)).
Proof.
  assert (Hraw : ∀ w',
    (ev ∈ calls w' → ev ∈ calls w ∨
       ∃ category handler d outcome,
         ev = Handled category handler d outcome ∧
         handler ∈ _handlers self category ∧
         ((category = RawUpdateHandler ∧ d = RawUpdate update) ∨
          (_get_handler self update = Ok (Some category) ∧
           ∃ u, _update_constructor category self update = Ok u ∧ d = Constructed u))) →
    ev ∈ calls (for_each_handler RawUpdateHandler (_handlers self RawUpdateHandler)
                  (RawUpdate update) w').2 →
    ev ∈ calls w ∨
    ∃ category handler d outcome,
      ev = Handled category handler d outcome ∧
      handler ∈ _handlers self category ∧
      ((category = RawUpdateHandler ∧ d = RawUpdate update) ∨
       (_get_handler self update = Ok (Some category) ∧
        ∃ u, _update_constructor category self update = Ok u ∧ d = Constructed u))).
  { intros w' Hbefore [Hin|(handler & outcome & -> & Hin)]%for_each_handler_calls_of;
      [by apply Hbefore|].
    right. exists RawUpdateHandler, handler, (RawUpdate update), outcome. eauto. }
  unfold _call_handlers.
  destruct (_get_handler self update) as [[handler_type|]|e] eqn:Hget.
  - unfold mbind, M_bind, try_except_Exception, eval.
    destruct (_update_constructor handler_type self update) as [u|e] eqn:Hcons.
    + assert (Hcat : ev ∈ calls (for_each_handler handler_type (_handlers self handler_type)
                                   (Constructed u) w).2 →
        ev ∈ calls w ∨
        ∃ category handler d outcome,
          ev = Handled category handler d outcome ∧
          handler ∈ _handlers self category ∧
          ((category = RawUpdateHandler ∧ d = RawUpdate update) ∨
           (Ok (Some handler_type) = Ok (Some category) ∧
            ∃ u, _update_constructor category self update = Ok u ∧ d = Constructed u))).
      { intros [Hin|(handler & outcome & -> & Hin)]%for_each_handler_calls_of; [by left|].
        right. exists handler_type, handler, (Constructed u), outcome. eauto 10. }
      destruct (for_each_handler handler_type (_handlers self handler_type) (Constructed u) w)
        as [[[]|e] w1]; simpl in *.
      * by apply Hraw.
      * destruct (isinstance_Exception e); simpl; [by apply Hraw|done].
    + destruct (isinstance_Exception e); simpl; [apply Hraw; by left|by left].
  - unfold mbind, M_bind. simpl. apply Hraw. by left.
  - destruct (is_invalid_update_error e); simpl; by left.
Qed.

(** When every handler of a loop lets it go on, all of them are called. *)
Lemma loop_outcomes_all handlers d s outcomes :
  loop_outcomes handlers d s outcomes →
  (∀ handler s', handler ∈ handlers → goes_on handler (handle handler d s').1 = true) →
  length outcomes = length handlers.
Proof.
  intros [Hlen Hreal Hstart Hnext _] Hgo.
  destruct (decide (length outcomes = length handlers)) as [|Hne]; [done|exfalso].
  destruct (decide (outcomes = [])) as [->|Hnil].
  { destruct handlers; [done|]. by destruct Hstart. }
  destruct (exists_last Hnil) as (front & o & ->).
  rewrite length_app in *. simpl in *.
  assert (Ho : (front ++ [o]) !! length front = Some o).
  { rewrite lookup_app_r by lia. by rewrite Nat.sub_diag. }
  destruct (lookup_lt_is_Some_2 handlers (length front)) as [handler Hh]; [lia|].
  specialize (Hnext (length front) handler o Hh Ho).
  rewrite <- (Hreal _ _ _ Hh Ho), (Hgo handler) in Hnext by by eapply list_elem_of_lookup_2.
  specialize (Hnext eq_refl). simpl in Hnext. lia.
Qed.

(** The two loops of a dispatch that has a category and an update. *)
Lemma call_handlers_loops self update handler_type constructed_update w :
  _get_handler self update = Ok (Some handler_type) →
  _update_constructor handler_type self update = Ok constructed_update →
  ∃ outcomes raw_outcomes,
    calls (_call_handlers self update w).2 =
      calls w
      ++ loop_calls handler_type (_handlers self handler_type)
           (Constructed constructed_update) outcomes
      ++ loop_calls RawUpdateHandler (_handlers self RawUpdateHandler)
           (RawUpdate update) raw_outcomes ∧
    loop_outcomes (_handlers self handler_type) (Constructed constructed_update) (app w)
      outcomes ∧
    (Forall (λ o, escapes o = false) outcomes →
     loop_outcomes (_handlers self RawUpdateHandler) (RawUpdate update)
       (state_at (_handlers self handler_type) (Constructed constructed_update) (app w)
          (length outcomes))
       raw_outcomes).
Proof.
  intros Hget Hcons. unfold _call_handlers. rewrite Hget.
  unfold mbind, M_bind, try_except_Exception, eval. rewrite Hcons.
  destruct (for_each_handler_calls handler_type (Constructed constructed_update)
              (_handlers self handler_type) w) as (outcomes & Hloop & Hcalls & Happ & Hres).
  assert (Hraw : ∀ w1,
    calls w1 = calls w ++ loop_calls handler_type (_handlers self handler_type)
                            (Constructed constructed_update) outcomes →
    app w1 = state_at (_handlers self handler_type) (Constructed constructed_update) (app w)
               (length outcomes) →
    ∃ raw_outcomes,
      calls (for_each_handler RawUpdateHandler (_handlers self RawUpdateHandler)
               (RawUpdate update) w1).2 =
        calls w
        ++ loop_calls handler_type (_handlers self handler_type)
             (Constructed constructed_update) outcomes
        ++ loop_calls RawUpdateHandler (_handlers self RawUpdateHandler)
             (RawUpdate update) raw_outcomes ∧
      loop_outcomes (_handlers self RawUpdateHandler) (RawUpdate update)
        (state_at (_handlers self handler_type) (Constructed constructed_update) (app w)
           (length outcomes))
        raw_outcomes).
  { intros w1 Hcalls1 Happ1.
    destruct (for_each_handler_calls RawUpdateHandler (RawUpdate update)
                (_handlers self RawUpdateHandler) w1) as (raw & Hraw & Hrcalls & _).
    exists raw. split; [by rewrite Hrcalls, Hcalls1, <- app_assoc|by rewrite <- Happ1]. }
  destruct (for_each_handler handler_type (_handlers self handler_type)
              (Constructed constructed_update) w) as [[[]|e] w1]; simpl in *.
  - destruct (Hraw w1 Hcalls Happ) as (raw & Hrcalls & Hrloop).
    exists outcomes, raw. eauto.
  - destruct Hres as (i & handler & o & Hh & Ho & Hlen & Hraised).
    destruct (isinstance_Exception e) eqn:He; simpl.
    + destruct (Hraw w1 Hcalls Happ) as (raw & Hrcalls & Hrloop).
      exists outcomes, raw. eauto.
    + exists outcomes, []. split.
      { unfold loop_calls at 2. by rewrite zip_with_nil_r, app_nil_r. }
      split; [done|]. intros Hok. exfalso.
      rewrite Forall_lookup in Hok.
      rewrite (raised_by_caught handler o e Hraised (Hok i o Ho)) in He. done.
Qed.

(** X11: when no registered handler raises StopHandling, escapes, or
    raises an error that cannot be logged for want of a name of its
    callback, one dispatch of a classified and constructed update calls every
    handler of its category and then every raw-update handler, each once, in
    registration order. *)
Theorem call_handlers_all_called self update handler_type constructed_update w :
  _get_handler self update = Ok (Some handler_type) →
  _update_constructor handler_type self update = Ok constructed_update →
  (∀ category handler d s,
     handler ∈ _handlers self category → goes_on handler (handle handler d s).1 = true) →
  ∃ outcomes raw_outcomes,
    length outcomes = length (_handlers self handler_type) ∧
    length raw_outcomes = length (_handlers self RawUpdateHandler) ∧
    calls (_call_handlers self update w).2 =
      calls w
      ++ loop_calls handler_type (_handlers self handler_type)
           (Constructed constructed_update) outcomes
      ++ loop_calls RawUpdateHandler (_handlers self RawUpdateHandler)
           (RawUpdate update) raw_outcomes.
Proof.
  intros Hget Hcons Hgo.
  destruct (call_handlers_loops self update handler_type constructed_update w Hget Hcons)
    as (outcomes & raw_outcomes & Hcalls & Hloop & Hraw).
  assert (Hlen : length outcomes = length (_handlers self handler_type)).
  { apply (loop_outcomes_all _ _ _ _ Hloop). intros handler s. apply (Hgo handler_type). }
  assert (Hesc : Forall (λ o, escapes o = false) outcomes).
  { apply Forall_lookup_2. intros i o Ho.
    destruct (lookup_lt_is_Some_2 (_handlers self handler_type) i) as [handler Hh].
    { apply lookup_lt_Some in Ho. lia. }
    rewrite <- (loop_real _ _ _ _ Hloop _ _ _ Hh Ho).
    apply (goes_on_escapes handler), (Hgo handler_type). by eapply list_elem_of_lookup_2. }
  exists outcomes, raw_outcomes. split; [done|]. split; [|done].
  apply (loop_outcomes_all _ _ _ _ (Hraw Hesc)). intros handler s.
  apply (Hgo RawUpdateHandler).
Qed.

(** *** More on the encrypted flow endpoint *)

Lemma encrypted_eq ep reply aes_key iv status w :
  encrypted ep reply aes_key iv status w =
    (body ← response_encryptor ep reply aes_key iv; Ok (body, status), w).
Proof.
  unfold encrypted, mbind at 1, M_bind, eval.
  by destruct (response_encryptor ep reply aes_key iv).
Qed.

(** Encrypting changes nothing in the world. *)
Lemma encrypted_world ep reply aes_key iv status w :
  (encrypted ep reply aes_key iv status w).2 = w.
Proof. by rewrite encrypted_eq. Qed.

(** Once the callback is reached, the world at the end is the world after
    the one call of the callback. *)
Lemma answer_world ep request aes_key iv returned s w :
  callback ep request (app w) = (returned, s) →
  (answer ep request aes_key iv w).2 =
    {| app := s; calls := calls w ++ [FlowCallback request] |}.
Proof.
  intros Hcb. unfold answer, call_or_raise, call_callback, mbind, M_bind. rewrite Hcb.
  destruct returned as [[r|d|e|t]|e]; simpl.
  - destruct (acknowledge_errors ep && has_error request); apply encrypted_world.
  - destruct (acknowledge_errors ep && has_error request); apply encrypted_world.
  - destruct (isinstance_FlowResponseError e) eqn:He; simpl.
    + destruct e; simplify_eq/=; [apply encrypted_world|done].
    + destruct (acknowledge_errors ep && has_error request); [apply encrypted_world|done].
  - destruct (acknowledge_errors ep && has_error request); [apply encrypted_world|done].
  - destruct e; simpl; try done; try (by destruct (__name__ (callback ep))).
    apply encrypted_world.
Qed.

(** X12: when the decrypted request cannot be turned into a flow request,
    the handler answers "Failed to construct FlowRequest" in plain text with
    status 500 and leaves the world as it was: the callback is not called. *)
Theorem flow_parse_failed ep payload decrypted_request aes_key iv e w :
  decrypt ep payload = Ok (decrypted_request, aes_key, iv) →
  is_ping ep decrypted_request = Ok false →
  FlowRequest_from_dict decrypted_request payload = Raise e →
  isinstance_Exception e = true →
  flow_request_handler ep payload w = (Ok ("Failed to construct FlowRequest", 500), w).
Proof.
  intros Hd Hp Hr He. unfold flow_request_handler. by rewrite Hd, Hp, Hr, He.
Qed.

(** X13: when the callback raises an error that is no flow response
    error, the handler answers "An error occurred" in plain text with status
    500, with acknowledge-errors on or off, if the callback has a name for
    the log; if it has none, the handler raises AttributeError and answers
    nothing.  Either way the callback was called once. *)
Theorem flow_callback_failed ep payload decrypted_request aes_key iv request e s w :
  decrypt ep payload = Ok (decrypted_request, aes_key, iv) →
  is_ping ep decrypted_request = Ok false →
  FlowRequest_from_dict decrypted_request payload = Ok request →
  callback ep request (app w) = (Raise e, s) →
  isinstance_Exception e = true →
  isinstance_FlowResponseError e = false →
  flow_request_handler ep payload w =
    (if __name__ (callback ep) is Some _ then Ok ("An error occurred", 500)
     else Raise AttributeError,
     {| app := s; calls := calls w ++ [FlowCallback request] |}).
Proof.
  intros Hd Hp Hr Hcb He Hno.
  rewrite (flow_request_handler_answer _ _ _ _ _ _ _ Hd Hp Hr).
  unfold answer, call_or_raise, call_callback, mbind, M_bind. rewrite Hcb.
  destruct e; try done; simpl; by destruct (__name__ (callback ep)).
Qed.

(** X14: when the callback returns a flow response or a dict, and the
    request is not one to acknowledge, the handler answers with the
    encryption of the response's dict, or of the dict itself, and status
    200. *)
Theorem flow_success ep payload decrypted_request aes_key iv request returned reply s body w :
  decrypt ep payload = Ok (decrypted_request, aes_key, iv) →
  is_ping ep decrypted_request = Ok false →
  FlowRequest_from_dict decrypted_request payload = Ok request →
  acknowledge_errors ep && has_error request = false →
  callback ep request (app w) = (Ok returned, s) →
  (∃ r, returned = ReturnedFlowResponse r ∧ reply = to_dict r) ∨
  (∃ d, returned = ReturnedDict d ∧ reply = JDict d) →
  response_encryptor ep reply aes_key iv = Ok body →
  flow_request_handler ep payload w =
    (Ok (body, 200), {| app := s; calls := calls w ++ [FlowCallback request] |}).
Proof.
  intros Hd Hp Hr Hack Hcb Hret Henc.
  rewrite (flow_request_handler_answer _ _ _ _ _ _ _ Hd Hp Hr).
  unfold answer, call_or_raise, call_callback, mbind, M_bind. rewrite Hcb.
  destruct Hret as [(r & -> & ->)|(d & -> & ->)]; simpl;
    rewrite Hack, encrypted_eq, Henc; reflexivity.
Qed.

(** X15: when the callback returns anything but a flow response, a dict
    or a flow response error, and the request is not one to acknowledge, the
    handler answers nothing: it raises TypeError. *)
Theorem flow_wrong_return_type ep payload decrypted_request aes_key iv request returned s w :
  decrypt ep payload = Ok (decrypted_request, aes_key, iv) →
  is_ping ep decrypted_request = Ok false →
  FlowRequest_from_dict decrypted_request payload = Ok request →
  acknowledge_errors ep && has_error request = false →
  callback ep request (app w) = (Ok returned, s) →
  (∃ type_name, returned = ReturnedOther type_name) ∨
  (∃ e, returned = ReturnedException e ∧ isinstance_FlowResponseError e = false) →
  flow_request_handler ep payload w =
    (Raise TypeError, {| app := s; calls := calls w ++ [FlowCallback request] |}).
Proof.
  intros Hd Hp Hr Hack Hcb Hret.
  rewrite (flow_request_handler_answer _ _ _ _ _ _ _ Hd Hp Hr).
  unfold answer, call_or_raise, call_callback, mbind, M_bind. rewrite Hcb.
  destruct Hret as [(t & ->)|(e & -> & He)]; simpl; [|rewrite He; simpl];
    by rewrite Hack.
Qed.

(** X16: with health checks not handled, the action of the decrypted
    request is not read: every request that decrypts and parses, a ping or
    one without an action at all, is passed to the callback, once. *)
Theorem flow_health_check_off ep payload decrypted_request aes_key iv request returned s w :
  decrypt ep payload = Ok (decrypted_request, aes_key, iv) →
  handle_health_check ep = false →
  FlowRequest_from_dict decrypted_request payload = Ok request →
  callback ep request (app w) = (returned, s) →
  (flow_request_handler ep payload w).2 =
    {| app := s; calls := calls w ++ [FlowCallback request] |}.
Proof.
  intros Hd Hh Hr Hcb.
  assert (Hp : is_ping ep decrypted_request = Ok false).
  { unfold is_ping. by rewrite Hh. }
  rewrite (flow_request_handler_answer _ _ _ _ _ _ _ Hd Hp Hr).
  by eapply answer_world.
Qed.

(** X17: one request calls the callback at most once.  Either the world is
    left as it was, or the payload was decrypted and parsed and the world is
    the one after a single call of the callback with the parsed request. *)
Theorem flow_callback_at_most_once ep payload w :
  (flow_request_handler ep payload w).2 = w ∨
  ∃ decrypted_request aes_key iv request returned s,
    decrypt ep payload = Ok (decrypted_request, aes_key, iv) ∧
    FlowRequest_from_dict decrypted_request payload = Ok request ∧
    callback ep request (app w) = (returned, s) ∧
    (flow_request_handler ep payload w).2 =
      {| app := s; calls := calls w ++ [FlowCallback request] |}.
Proof.
  unfold flow_request_handler.
  destruct (decrypt ep payload) as [[[decrypted_request aes_key] iv]|e] eqn:Hd.
  2: { left. by destruct (isinstance_Exception e). }
  destruct (is_ping ep decrypted_request) as [[]|e]; [|..|by left].
  { left. unfold mbind, M_bind, eval.
    destruct (decrypted_request.["version"]); [apply encrypted_world|done]. }
  destruct (FlowRequest_from_dict decrypted_request payload) as [request|e] eqn:Hr.
  2: { left. by destruct (isinstance_Exception e). }
  right. destruct (callback ep request (app w)) as [returned s] eqn:Hcb.
  exists decrypted_request, aes_key, iv, request, returned, s.
  repeat split; try done. by eapply answer_world.
Qed.

Lemma encrypted_ok ep reply aes_key iv status w body status' :
  (encrypted ep reply aes_key iv status w).1 = Ok (body, status') →
  response_encryptor ep reply aes_key iv = Ok body ∧ status' = status.
Proof.
  rewrite encrypted_eq. simpl.
  destruct (response_encryptor ep reply aes_key iv); simpl; [|done]. by intros [= -> ->].
Qed.

(** X18: every body that the handler answers with is one of the three
    fixed plain texts with their status codes (421, 500, 500), the class
    name of a flow response error that the callback raised or returned, with
    that error's status code, or what the encryptor made of some reply under
    the key and the vector that the decryptor returned for this payload. *)
Theorem flow_response_bodies ep payload w body status :
  (flow_request_handler ep payload w).1 = Ok (body, status) →
  (body, status) = ("Decryption failed", 421) ∨
  (body, status) = ("Failed to construct FlowRequest", 500) ∨
  (body, status) = ("An error occurred", 500) ∨
  (∃ decrypted_request aes_key iv request s,
     decrypt ep payload = Ok (decrypted_request, aes_key, iv) ∧
     FlowRequest_from_dict decrypted_request payload = Ok request ∧
     (callback ep request (app w) = (Raise (FlowResponseError body status), s) ∨
      callback ep request (app w) = (Ok (ReturnedException (FlowResponseError body status)), s))) ∨
  (∃ decrypted_request aes_key iv reply,
     decrypt ep payload = Ok (decrypted_request, aes_key, iv) ∧
     response_encryptor ep reply aes_key iv = Ok body).
Proof.
  unfold flow_request_handler.
  destruct (decrypt ep payload) as [[[decrypted_request aes_key] iv]|e] eqn:Hd.
  2: { destruct (isinstance_Exception e); simpl; [|done]. intros [= <- <-]. by left. }
  assert (Henc : ∀ reply st w',
    (encrypted ep reply aes_key iv st w').1 = Ok (body, status) →
    ∃ decrypted_request' aes_key' iv' reply,
      Ok (decrypted_request, aes_key, iv) = Ok (decrypted_request', aes_key', iv') ∧
      response_encryptor ep reply aes_key' iv' = Ok body).
  { intros reply st w' [Hb _]%encrypted_ok.
    by exists decrypted_request, aes_key, iv, reply. }
  destruct (is_ping ep decrypted_request) as [[]|e]; [|..|done].
  { unfold mbind, M_bind, eval.
    destruct (decrypted_request.["version"]); [|done]. intros H. do 4 right. by eapply Henc. }
  destruct (FlowRequest_from_dict decrypted_request payload) as [request|e] eqn:Hr.
  2: { destruct (isinstance_Exception e); simpl; [|done]. intros [= <- <-]. right. by left. }
  unfold answer, call_or_raise, call_callback, mbind, M_bind.
  destruct (callback ep request (app w)) as [[[r|d|e|t]|e] s] eqn:Hcb; simpl.
  - destruct (acknowledge_errors ep && has_error request); intros H; do 4 right; by eapply Henc.
  - destruct (acknowledge_errors ep && has_error request); intros H; do 4 right; by eapply Henc.
  - destruct (isinstance_FlowResponseError e) eqn:He; simpl.
    + destruct e; simplify_eq/=.
      * intros H. do 4 right. by eapply Henc.
      * intros [= <- <-]. do 3 right. left.
        exists decrypted_request, aes_key, iv, request, s. eauto.
    + destruct (acknowledge_errors ep && has_error request); [|done].
      intros H. do 4 right. by eapply Henc.
  - destruct (acknowledge_errors ep && has_error request); [|done].
    intros H. do 4 right. by eapply Henc.
  - destruct e; simpl;
      try (destruct (__name__ (callback ep)); simpl; [|done];
           intros [= <- <-]; right; right; by left);
      try done.
    + intros H. do 4 right. by eapply Henc.
    + intros [= <- <-]. do 3 right. left.
      exists decrypted_request, aes_key, iv, request, s. eauto.
Qed.

(** *** Setting up the server *)

(** The token and the routes of a server that [__init__] has set up. *)
Lemma init_listening_facts args self reg routes :
  __init__ args = (Ok (Some self, reg), routes) →
  ∃ token,
    verify_token args = Some token ∧ token ≠ "" ∧
    _webhook_endpoint self = webhook_endpoint args ∧
    routes = [Route "GET" (webhook_endpoint args) (ChallengeView token);
              Route "POST" (webhook_endpoint args) WebhookView].
Proof.
  unfold __init__. intros Hinit.
  destruct (server args) as [app|]; [|done].
  destruct (verify_token args) as [token|]; [|done].
  case_bool_decide as Htoken; [done|]. exists token.
  destruct (is_flask_app app); [|destruct (is_fastapi_app app); [|done]];
    (destruct (callback_url args) as [url|];
     [destruct (app_id args) as [id|], (app_secret args) as [secret|]|];
     by simplify_eq/=).
Qed.

(** X19: when [__init__] returns for a server, the server is a Flask or a
    FastAPI app, the verify token is a non-empty string, the routes
    registered are the GET and the POST of the webhook endpoint and no other,
    and a registration of the callback URL is started exactly when a callback
    URL was given, with the app id and the app secret that were given with
    it. *)
Theorem init_listening args self reg routes :
  __init__ args = (Ok (Some self, reg), routes) →
  ∃ token,
    server args = Some (_server self) ∧
    is_flask_app (_server self) || is_fastapi_app (_server self) = true ∧
    verify_token args = Some token ∧ token ≠ "" ∧
    _webhook_endpoint self = webhook_endpoint args ∧
    routes = [Route "GET" (webhook_endpoint args) (ChallengeView token);
              Route "POST" (webhook_endpoint args) WebhookView] ∧
    match reg with
    | Some r =>
        callback_url args = Some (reg_callback_url r) ∧
        app_id args = Some (reg_app_id r) ∧
        app_secret args = Some (reg_app_secret r) ∧
        reg_verify_token r = token ∧
        reg_webhook_endpoint r = webhook_endpoint args
    | None => callback_url args = None
    end.
Proof.
  unfold __init__. intros Hinit.
  destruct (server args) as [app|]; [|done].
  destruct (verify_token args) as [token|]; [|done].
  case_bool_decide as Htoken; [done|]. exists token.
  assert (Happ : is_flask_app app || is_fastapi_app app = true).
  { destruct (is_flask_app app); [done|]. by destruct (is_fastapi_app app). }
  assert (Hsame : ∀ (X : Type) (x y : X),
    (if is_flask_app app then x else if is_fastapi_app app then x else y) = x).
  { intros X x y. destruct (is_flask_app app); [done|]. by destruct (is_fastapi_app app). }
  rewrite Hsame in Hinit.
  destruct (callback_url args) as [url|].
  - destruct (app_id args) as [id|], (app_secret args) as [secret|]; simplify_eq/=.
    by rewrite Happ.
  - simplify_eq/=. by rewrite Happ.
Qed.

(** X20: the challenge of a server that [__init__] has set up, on Flask
    and on FastAPI, answers 200 exactly when the request carries a
    [hub.verify_token] equal to the configured token; a request without the
    parameter, or with an empty one, is answered 403. *)
Theorem init_challenge args self reg routes path token query :
  __init__ args = (Ok (Some self, reg), routes) →
  Route "GET" path (ChallengeView token) ∈ routes →
  ((flask_challenge token query).2 = 200 ↔
   query !! "hub.verify_token" = verify_token args) ∧
  (query !! "hub.verify_token" = None ∨ query !! "hub.verify_token" = Some "" →
   (flask_challenge token query).2 = 403) ∧
  (∀ vt ch, (fastapi_challenge token vt ch).2 = 200 ↔ Some vt = verify_token args).
Proof.
  intros (token' & Htoken & Hne & _ & ->)%init_listening_facts Hin.
  assert (token = token') as ->.
  { apply elem_of_cons in Hin as [[= _ ->]|Hin]; [done|].
    apply elem_of_cons in Hin as [[=]|Hin]. by apply elem_of_nil in Hin. }
  rewrite Htoken. unfold fastapi_challenge, flask_challenge, challenge_handler.
  split_and!; [|intros Hq|intros vt ch]; case_bool_decide as Hvt; simpl; try done.
  destruct Hq as [Hq|Hq]; rewrite Hq in Hvt; congruence.
Qed.

(** *** Registering a flow endpoint *)

(** What a registration that went through has checked and built. *)
Lemma register_flow_endpoint_facts
    self path cb ack health key password decryptor encryptor routes :
  _register_flow_endpoint_callback self path cb ack health key password decryptor encryptor
    = Ok routes →
  ∃ self' key' decryptor' encryptor',
    self = Some self' ∧
    or_str key (_private_key self') = Some key' ∧ key' ≠ "" ∧
    or_callable decryptor (_flows_request_decryptor self') = Some decryptor' ∧
    or_callable encryptor (_flows_response_encryptor self') = Some encryptor' ∧
    (is_default decryptor' || is_default encryptor' = true → is_cryptography_installed = true) ∧
    path ≠ _webhook_endpoint self' ∧
    routes =
      if is_flask_app (_server self') || is_fastapi_app (_server self') then
        [Route "POST" path
           (FlowView
              (Build_FlowEndpoint path cb ack health key'
                 (or_str password (_private_key_password self'))
                 (decryptor_of decryptor') (encryptor_of encryptor')))]
      else [].
Proof.
  unfold _register_flow_endpoint_callback. intros Hreg.
  destruct self as [self'|]; [|done].
  destruct (or_str key (_private_key self')) as [key'|] eqn:Hkey; [|done].
  case_bool_decide as Hempty; [done|].
  destruct (or_callable decryptor (_flows_request_decryptor self')) as [decryptor'|]
    eqn:Hdec; [|done].
  destruct (or_callable encryptor (_flows_response_encryptor self')) as [encryptor'|]
    eqn:Henc; [|done].
  destruct ((is_default decryptor' || is_default encryptor') && negb is_cryptography_installed)
    eqn:Hcrypto; [done|].
  case_bool_decide as Hpath; [done|].
  exists self', key', decryptor', encryptor'. split_and!; try done.
  - intros Hdef. rewrite Hdef in Hcrypto. by destruct is_cryptography_installed.
  - destruct (is_flask_app (_server self')); simpl; [congruence|].
    destruct (is_fastapi_app (_server self')); congruence.
Qed.


(** X22: an argument of the registration takes precedence over what the
    client was set up with: the endpoint gets the private key given for it
    unless that is None or empty, and the decryptor and the encryptor given
    for it unless they are None; the client's are used otherwise. *)
Theorem register_flow_endpoint_precedence
    self path cb ack health key password decryptor encryptor r ep :
  _register_flow_endpoint_callback (Some self) path cb ack health key password
    decryptor encryptor = Ok [r] →
  route_view r = FlowView ep →
  Some (private_key ep) = (if truthy_str key then key else _private_key self) ∧
  private_key_password ep =
    (if truthy_str password then password else _private_key_password self) ∧
  Some (request_decryptor ep) =
    decryptor_of <$> (if decryptor is Some _ then decryptor else _flows_request_decryptor self) ∧
  Some (response_encryptor ep) =
    encryptor_of <$> (if encryptor is Some _ then encryptor else _flows_response_encryptor self).
Proof.
  intros (self' & key' & decryptor' & encryptor' & [= <-] & Hkey & Hne & Hdec & Henc & _
          & _ & Hroutes)%register_flow_endpoint_facts Hview.
  destruct (is_flask_app (_server self) || is_fastapi_app (_server self)); [|done].
  injection Hroutes as ->. simpl in Hview. injection Hview as <-. simpl.
  unfold or_str in *. unfold or_callable in *.
  rewrite Hkey. repeat split.
  - destruct decryptor; by rewrite Hdec.
  - destruct encryptor; by rewrite Henc.
Qed.

(** X23: the route of a flow endpoint never has the path of a route of
    the webhook: a flow endpoint registered on a client that [__init__] has
    set up shadows neither the challenge nor the webhook route. *)
Theorem flow_route_apart
    args self reg routes path cb ack health key password decryptor encryptor flow_routes :
  __init__ args = (Ok (self, reg), routes) →
  _register_flow_endpoint_callback self path cb ack health key password decryptor encryptor
    = Ok flow_routes →
  ∀ r r', r ∈ routes → r' ∈ flow_routes → route_path r ≠ route_path r'.
Proof.
  intros Hinit (self' & key' & decryptor' & encryptor' & -> & _ & _ & _ & _ & _ & Hpath
                & ->)%register_flow_endpoint_facts.
  apply init_listening_facts in Hinit as (token & _ & _ & Hep & ->).
  intros r r' Hr Hr'.
  destruct (is_flask_app (_server self') || is_fastapi_app (_server self'));
    [|by apply elem_of_nil in Hr'].
  apply list_elem_of_singleton in Hr' as ->. simpl. rewrite Hep in Hpath.
  apply elem_of_cons in Hr as [->|Hr]; [simpl; congruence|].
  apply list_elem_of_singleton in Hr as ->. simpl. congruence.
Qed.

(** *** Registering the callback URL *)

Lemma rstrip_slash_app_slash s : rstrip_slash (s ++ "/") = rstrip_slash s.
Proof.
  induction s as [|c s IH]; simpl; [done|]. by rewrite IH.
Qed.

Lemma rstrip_slash_kept s : (∀ t, s ≠ (t ++ "/")%string) → rstrip_slash s = s.
Proof.
  induction s as [|c s IH]; intros Hend; simpl; [done|].
  rewrite IH.
  - destruct s; [|done]. case_bool_decide as Hc; [|done].
    subst c. by destruct (Hend "").
  - intros t ->. by destruct (Hend (String c t)).
Qed.

Lemma lstrip_slash_kept s : (∀ t, s ≠ ("/" ++ t)%string) → lstrip_slash s = s.
Proof.
  destruct s as [|c s]; intros Hstart; simpl; [done|].
  destruct c as [[] [] [] [] [] [] [] []]; try done. by destruct (Hstart s).
Qed.

(** X24: slashes where the callback URL and the webhook endpoint meet do
    not count: one more at the end of the URL or at the start of the endpoint
    gives the same full URL, and with none on either side the full URL is the
    two joined by one slash. *)
Theorem full_url_slashes url path :
  full_url (url ++ "/") path = full_url url path ∧
  full_url url ("/" ++ path) = full_url url path ∧
  ((∀ t, url ≠ (t ++ "/")%string) → (∀ t, path ≠ ("/" ++ t)%string) →
   full_url url path = (url ++ "/" ++ path)%string).
Proof.
  unfold full_url. split; [by rewrite rstrip_slash_app_slash|]. split; [done|].
  intros Hurl Hpath. by rewrite rstrip_slash_kept, lstrip_slash_kept.
Qed.

(** X25: with no fields given, or an empty tuple of them, the callback is
    subscribed to exactly the fields of the field table; fields that are
    given are passed on as they are. *)
Theorem subscribed_fields_default fields :
  (fields = None ∨ fields = Some [] →
   ∀ name, name ∈ subscribed_fields fields ↔ is_Some (_fields_to_subclasses !! name)) ∧
  (∀ names, fields = Some names → names ≠ [] → subscribed_fields fields = names).
Proof.
  split.
  - intros Hnone name.
    assert (subscribed_fields fields = (map_to_list _fields_to_subclasses).*1) as ->.
    { by destruct Hnone as [->| ->]. }
    rewrite list_elem_of_fmap. split.
    + intros ([name' h] & -> & Hin%elem_of_map_to_list). by exists h.
    + intros [h Hh]. exists (name, h). split; [done|]. by apply elem_of_map_to_list.
  - intros names -> Hne. by destruct names.
Qed.

(** X26: when the registration of the callback URL returns, the access
    token was obtained and the callback URL was set, with the full URL, the
    verify token and the subscribed fields, and the API answered with a
    success entry that is true. *)
Theorem register_callback_url_done reg steps :
  register_callback_url reg = (Ok (), steps) →
  ∃ token access reply success,
    get_app_access_token (reg_app_id reg) (reg_app_secret reg) = Ok token ∧
    token.["access_token"] = Ok access ∧
    set_app_callback_url (reg_app_id reg) access
      (full_url (reg_callback_url reg) (reg_webhook_endpoint reg))
      (reg_verify_token reg) (subscribed_fields (reg_fields reg)) = Ok reply ∧
    reply.["success"] = Ok success ∧
    truthy success = true ∧
    last steps =
      Some (SetCallbackUrl (reg_app_id reg) access
              (full_url (reg_callback_url reg) (reg_webhook_endpoint reg))
              (reg_verify_token reg) (subscribed_fields (reg_fields reg))).
Proof.
  unfold register_callback_url.
  destruct (get_app_access_token (reg_app_id reg) (reg_app_secret reg)) as [token|]
    eqn:Htoken; simpl; [|done].
  destruct (token.["access_token"]) as [access|] eqn:Haccess; [|done].
  destruct (set_app_callback_url _ _ _ _ _) as [reply|] eqn:Hset; simpl; [|done].
  destruct (reply.["success"]) as [success|] eqn:Hsuccess; [|done].
  destruct (truthy success) eqn:Htrue; [|done].
  intros [= <-]. exists token, access, reply, success.
  split_and!; try done. by rewrite last_snoc.
Qed.

(** X27: the registration lets no WhatsAppError out: what it raises is a
    RuntimeError or an error that is no WhatsAppError; it is a RuntimeError
    when one of the two API calls raises a WhatsAppError, and when the API
    answers with a success entry that is false. *)
Theorem register_callback_url_raises reg :
  (∀ e, (register_callback_url reg).1 = Raise e →
        e = OtherException "RuntimeError" ∨ isinstance_WhatsAppError e = false) ∧
  (∀ e, get_app_access_token (reg_app_id reg) (reg_app_secret reg) = Raise e →
        isinstance_WhatsAppError e = true →
        (register_callback_url reg).1 = Raise (OtherException "RuntimeError")) ∧
  (∀ token access e,
     get_app_access_token (reg_app_id reg) (reg_app_secret reg) = Ok token →
     token.["access_token"] = Ok access →
     set_app_callback_url (reg_app_id reg) access
       (full_url (reg_callback_url reg) (reg_webhook_endpoint reg))
       (reg_verify_token reg) (subscribed_fields (reg_fields reg)) = Raise e →
     isinstance_WhatsAppError e = true →
     (register_callback_url reg).1 = Raise (OtherException "RuntimeError")) ∧
  (∀ token access reply success,
     get_app_access_token (reg_app_id reg) (reg_app_secret reg) = Ok token →
     token.["access_token"] = Ok access →
     set_app_callback_url (reg_app_id reg) access
       (full_url (reg_callback_url reg) (reg_webhook_endpoint reg))
       (reg_verify_token reg) (subscribed_fields (reg_fields reg)) = Ok reply →
     reply.["success"] = Ok success →
     truthy success = false →
     (register_callback_url reg).1 = Raise (OtherException "RuntimeError")).
Proof.
  assert (Hwrap : ∀ e e', wrap_WhatsAppError e = e' →
    e' = OtherException "RuntimeError" ∨ isinstance_WhatsAppError e' = false).
  { unfold wrap_WhatsAppError. intros e e' <-.
    destruct (isinstance_WhatsAppError e) eqn:He; eauto. }
  unfold register_callback_url. split_and!.
  - intros e.
    destruct (get_app_access_token _ _) as [token|e1]; simpl;
      [|intros [= <-]; by eapply Hwrap].
    destruct (token.["access_token"]) as [access|e1]; [|intros [= <-]; by eapply Hwrap].
    destruct (set_app_callback_url _ _ _ _ _) as [reply|e1]; simpl;
      [|intros [= <-]; by eapply Hwrap].
    destruct (reply.["success"]) as [success|e1]; [|intros [= <-]; by eapply Hwrap].
    destruct (truthy success); [done|]. intros [= <-]. by eapply Hwrap.
  - intros e -> He. simpl. unfold wrap_WhatsAppError. by rewrite He.
  - intros token access e -> Ha. simpl. rewrite Ha. intros -> He. simpl.
    unfold wrap_WhatsAppError. by rewrite He.
  - intros token access reply success -> Ha. simpl. rewrite Ha. intros -> Hs. simpl.
    rewrite Hs. intros ->. simpl. unfold wrap_WhatsAppError.
    by destruct (isinstance_WhatsAppError _).
Qed.

(** X28: whatever the registration does to the outside is in order: it
    sleeps only for a positive time, the verify timeout less six seconds;
    and it sets a callback URL only with an access token that it has
    obtained, and only to the full URL. *)
Theorem register_callback_url_steps reg s :
  s ∈ (register_callback_url reg).2 →
  match s with
  | Slept seconds => 0 < seconds ∧ reg_verify_timeout reg = Some (seconds + 6)
  | AskedAccessToken id secret => id = reg_app_id reg ∧ secret = reg_app_secret reg
  | SetCallbackUrl id access url token names =>
      url = full_url (reg_callback_url reg) (reg_webhook_endpoint reg) ∧
      ∃ answer,
        get_app_access_token (reg_app_id reg) (reg_app_secret reg) = Ok answer ∧
        answer.["access_token"] = Ok access
  end.
Proof.
  assert (Hslept : ∀ s',
    s' ∈ match reg_verify_timeout reg with
         | Some timeout =>
             if Z.ltb _VERIFY_TIMEOUT_SEC timeout
             then [Slept (timeout - _VERIFY_TIMEOUT_SEC)] else []
         | None => []
         end →
    ∃ seconds, s' = Slept seconds ∧ 0 < seconds ∧
               reg_verify_timeout reg = Some (seconds + 6)).
  { intros s'. destruct (reg_verify_timeout reg) as [timeout|]; [|by intros ?%elem_of_nil].
    destruct (Z.ltb_spec _VERIFY_TIMEOUT_SEC timeout) as [Hlt|]; [|by intros ?%elem_of_nil].
    intros ->%list_elem_of_singleton. eexists. split; [done|].
    unfold _VERIFY_TIMEOUT_SEC in *. split; [lia|]. f_equal. lia. }
  assert (Hasked : ∀ s',
    s' ∈ (match reg_verify_timeout reg with
          | Some timeout =>
              if Z.ltb _VERIFY_TIMEOUT_SEC timeout
              then [Slept (timeout - _VERIFY_TIMEOUT_SEC)] else []
          | None => []
          end ++ [AskedAccessToken (reg_app_id reg) (reg_app_secret reg)]) →
    match s' with
    | Slept seconds => 0 < seconds ∧ reg_verify_timeout reg = Some (seconds + 6)
    | AskedAccessToken id secret => id = reg_app_id reg ∧ secret = reg_app_secret reg
    | SetCallbackUrl _ _ _ _ _ => False
    end).
  { intros s' [(seconds & -> & Hs)%Hslept| ->%list_elem_of_singleton]%elem_of_app; done. }
  unfold register_callback_url.
  destruct (get_app_access_token _ _) as [token|e1] eqn:Htoken; simpl.
  2: { intros Hs%Hasked. by destruct s. }
  destruct (token.["access_token"]) as [access|e1] eqn:Haccess.
  2: { intros Hs%Hasked. by destruct s. }
  assert (Hset : s ∈ (match reg_verify_timeout reg with
          | Some timeout =>
              if Z.ltb _VERIFY_TIMEOUT_SEC timeout
              then [Slept (timeout - _VERIFY_TIMEOUT_SEC)] else []
          | None => []
          end ++ [AskedAccessToken (reg_app_id reg) (reg_app_secret reg)])
          ++ [SetCallbackUrl (reg_app_id reg) access
                (full_url (reg_callback_url reg) (reg_webhook_endpoint reg))
                (reg_verify_token reg) (subscribed_fields (reg_fields reg))] →
    match s with
    | Slept seconds => 0 < seconds ∧ reg_verify_timeout reg = Some (seconds + 6)
    | AskedAccessToken id secret => id = reg_app_id reg ∧ secret = reg_app_secret reg
    | SetCallbackUrl id access' url vt names =>
        url = full_url (reg_callback_url reg) (reg_webhook_endpoint reg) ∧
        ∃ answer, Ok token = Ok answer ∧ answer.["access_token"] = Ok access'
    end).
  { intros [Hs%Hasked| ->%list_elem_of_singleton]%elem_of_app; [by destruct s|].
    split; [done|]. by exists token. }
  destruct (set_app_callback_url _ _ _ _ _) as [reply|e1]; simpl; [|done].
  destruct (reply.["success"]) as [success|e1]; [|done].
  by destruct (truthy success).
Qed.

End Properties.

(** ** The properties on the sample client *)

#[local] Existing Instance Sample.package.
#[local] Existing Instance Sample.constructors.

(** *** Dispatch *)

(** On an empty notification the dispatch returns without a call. *)
Lemma call_handlers_malformed_witness :
  first_change (dict []) = Raise KeyError ∧
  _get_handler (Sample.client false) (dict []) = Raise ValueError ∧
  _call_handlers (Sample.client false) (dict []) Sample.start = (Ok (), Sample.start).
Proof.
  split; [reflexivity|].
  exact (call_handlers_malformed (Sample.client false) (dict []) KeyError Sample.start eq_refl).
Defined.

(** C1 fails on the code: the classifier cannot extract the first change
    of an empty notification, a raw-update handler is registered, and the
    dispatch makes no call at all. *)
Lemma call_handlers_malformed_skips_raw_handlers :
  first_change (dict []) = Raise KeyError ∧
  Sample.raw_logger ∈ _handlers (Sample.client false) RawUpdateHandler ∧
  calls (_call_handlers (Sample.client false) (dict []) Sample.start).2 = [].
Proof.
  split; [reflexivity|]. split; [|reflexivity].
  simpl. apply list_elem_of_singleton. reflexivity.
Qed.

(** The calls on a text message: [broken] raises and the loop goes on,
    [stopper] raises StopHandling and [late] is not called, and the raw loop
    runs all the same. *)
Example call_handlers_text_update :
  calls (_call_handlers (Sample.client false) Sample.text_update Sample.start).2 =
    [Handled MessageHandler Sample.broken (Constructed Sample.text_update)
       (Raise (OtherException "RuntimeError"));
     Handled MessageHandler Sample.stopper (Constructed Sample.text_update)
       (Raise StopHandling);
     Handled RawUpdateHandler Sample.raw_logger (RawUpdate Sample.text_update) (Ok ())].
Proof. reflexivity. Qed.



Lemma call_handlers_unknown_field_witness :
  _get_handler (Sample.client false) Sample.new_field_update = Ok None ∧
  _call_handlers (Sample.client false) Sample.new_field_update Sample.start
    = for_each_handler RawUpdateHandler [Sample.raw_logger]
        (RawUpdate Sample.new_field_update) Sample.start.
Proof.
  destruct (call_handlers_unknown_field (constructors := Sample.constructors)
              (Sample.client false) Sample.new_field_update
              (dict [("field", JStr "newfield"); ("value", JNull)])
              (JStr "newfield") JNull Sample.start
              eq_refl eq_refl eq_refl eq_refl eq_refl)
    as (Hget & Hrun & _).
  - intros name [= <-]. reflexivity.
  - split; [exact Hget|exact Hrun].
Defined.

(** C7 fails on the code: the notification has its entry, change, field
    and value, its field is not "messages" and is no key of the field
    table, but it is a list: looking it up in the table raises TypeError,
    and the dispatch returns without calling the raw-update handler that is
    registered. *)
Lemma call_handlers_unhashable_field_skips_raw_handlers :
  first_change Sample.list_field_update
    = Ok (dict [("field", JList []); ("value", JNull)]) ∧
  (dict [("field", JList []); ("value", JNull)]).["field"] = Ok (JList []) ∧
  (dict [("field", JList []); ("value", JNull)]).["value"] = Ok JNull ∧
  eq_str (JList []) "messages" = false ∧
  (∀ name, JList [] = JStr name → _fields_to_subclasses !! name = None) ∧
  _get_handler (Sample.client false) Sample.list_field_update = Raise TypeError ∧
  Sample.raw_logger ∈ _handlers (Sample.client false) RawUpdateHandler ∧
  calls (_call_handlers (Sample.client false) Sample.list_field_update Sample.start).2 = [].
Proof.
  split_and!; try reflexivity; [discriminate|].
  simpl. apply list_elem_of_singleton. reflexivity.
Qed.

(** *** Classification *)

Lemma get_handler_interactive_fallback_witness :
  _get_handler (Sample.client false) Sample.unknown_reply_update = Ok (Some MessageHandler).
Proof.
  apply (get_handler_interactive_fallback (Sample.client false)
           Sample.unknown_reply_update
           (dict [("field", JStr "messages");
                  ("value", Sample.one_message
                     (Sample.interactive_message (dict [("type", JStr "poll_reply")])))])
           (JStr "messages")
           (Sample.one_message (Sample.interactive_message (dict [("type", JStr "poll_reply")])))
           (JList [Sample.interactive_message (dict [("type", JStr "poll_reply")])])
           (Sample.interactive_message (dict [("type", JStr "poll_reply")]))
           (JStr "interactive")); try reflexivity; try discriminate.
  right. right. exists (dict [("type", JStr "poll_reply")]), (JStr "poll_reply").
  repeat split; try reflexivity.
  intros name [= <-].
  repeat (apply not_elem_of_cons; split; [discriminate|]). apply not_elem_of_nil.
Defined.

(** C6 fails on the code: with the recipient filter on, a message to
    another phone number with an unknown interactive sub-type is classified
    as none; and a sub-type that is a list, or an [interactive] entry that is
    null, makes the classifier raise TypeError. *)
Lemma get_handler_interactive_not_always_message :
  _get_handler (Sample.client true) Sample.unknown_reply_update = Ok None ∧
  _get_handler (Sample.client false)
    (Sample.notification (JStr "messages")
       (Sample.one_message (Sample.interactive_message (dict [("type", JList [])]))))
    = Raise TypeError ∧
  _get_handler (Sample.client false)
    (Sample.notification (JStr "messages")
       (Sample.one_message (Sample.interactive_message JNull)))
    = Raise TypeError.
Proof. repeat split; reflexivity. Qed.

(** *** Handshake *)

Lemma challenge_handler_answer_witness :
  challenge_handler "038726584673" (Some "038726584673") (Some "abc123")
    = (Some "abc123", 200) ∧
  challenge_handler "038726584673" (Some "guess") (Some "abc123")
    = (Some "Error, invalid verification token", 403) ∧
  challenge_handler "038726584673" None (Some "abc123")
    = (Some "Error, invalid verification token", 403).
Proof.
  split; [|split].
  - apply (challenge_handler_answer "038726584673" (Some "038726584673") (Some "abc123")).
    reflexivity.
  - apply (challenge_handler_answer "038726584673" (Some "guess") (Some "abc123")).
    discriminate.
  - apply (challenge_handler_answer "038726584673" None (Some "abc123")).
    discriminate.
Defined.

(** *** Flow endpoint *)

Lemma flow_decryption_failed_witness :
  flow_request_handler (Sample.flow_endpoint (Sample.cb_raises Sample.expired))
    (Sample.envelope (JStr "garbled")) Sample.start
    = (Ok ("Decryption failed", 421), Sample.start).
Proof.
  apply (flow_decryption_failed (Sample.flow_endpoint (Sample.cb_raises Sample.expired))
           (Sample.envelope (JStr "garbled")) (OtherException "InvalidTag") Sample.start);
    reflexivity.
Defined.

Lemma flow_health_check_witness :
  flow_request_handler (Sample.flow_endpoint (Sample.cb_raises Sample.expired))
    (Sample.envelope Sample.ping_request) Sample.start
    = (Ok ("sealed status", 200), Sample.start).
Proof.
  apply (flow_health_check (Sample.flow_endpoint (Sample.cb_raises Sample.expired))
           (Sample.envelope Sample.ping_request) Sample.ping_request [] [] (JStr "3.0")
           "sealed status" Sample.start);
    reflexivity.
Defined.

Lemma flow_token_no_longer_valid_witness :
  flow_request_handler (Sample.flow_endpoint (Sample.cb_raises Sample.expired))
    (Sample.envelope Sample.exchange_request) Sample.start
    = (Ok ("sealed error_msg expired", 427),
       Build_world ["callback"] [FlowCallback Sample.exchange_request]).
Proof.
  apply (flow_token_no_longer_valid (Sample.flow_endpoint (Sample.cb_raises Sample.expired))
           (Sample.envelope Sample.exchange_request) Sample.exchange_request [] []
           Sample.exchange_request "expired" 427 ["callback"]
           "sealed error_msg expired" Sample.start);
    reflexivity.
Defined.

Lemma flow_acknowledge_errors_witness :
  flow_request_handler (Sample.flow_endpoint (Sample.cb_returns (ReturnedOther "NoneType")))
    (Sample.envelope Sample.error_request) Sample.start
    = (Ok ("sealed acknowledged", 200),
       Build_world ["callback"] [FlowCallback Sample.error_request]).
Proof.
  apply (flow_acknowledge_errors
           (Sample.flow_endpoint (Sample.cb_returns (ReturnedOther "NoneType")))
           (Sample.envelope Sample.error_request) Sample.error_request [] []
           Sample.error_request (ReturnedOther "NoneType") ["callback"]
           "sealed acknowledged" Sample.start);
    try reflexivity.
  intros e. discriminate.
Defined.

(** C4 fails on the code: with acknowledge-errors on and a request that
    reports an error, a callback that returns a FlowTokenNoLongerValid is
    answered with the encrypted error message and status 427, not with the
    acknowledgement and 200. *)
Lemma flow_acknowledge_errors_not_for_returned_error :
  acknowledge_errors
    (Sample.flow_endpoint (Sample.cb_returns (ReturnedException Sample.expired))) = true ∧
  has_error Sample.error_request = true ∧
  Sample.cb_returns (ReturnedException Sample.expired) Sample.error_request []
    = (Ok (ReturnedException Sample.expired), ["callback"]) ∧
  (flow_request_handler
     (Sample.flow_endpoint (Sample.cb_returns (ReturnedException Sample.expired)))
     (Sample.envelope Sample.error_request) Sample.start).1
    = Ok ("sealed error_msg expired", 427).
Proof. repeat split; reflexivity. Qed.

Lemma flow_returned_error_as_raised_witness :
  flow_request_handler
    (Sample.flow_endpoint (Sample.cb_returns (ReturnedException Sample.expired)))
    (Sample.envelope Sample.exchange_request) Sample.start
    = flow_request_handler (Sample.flow_endpoint (λ _ _, (Raise Sample.expired, ["callback"])))
        (Sample.envelope Sample.exchange_request) Sample.start.
Proof.
  apply (flow_returned_error_as_raised
           (Sample.flow_endpoint (Sample.cb_returns (ReturnedException Sample.expired)))
           (Sample.envelope Sample.exchange_request) Sample.exchange_request [] []
           Sample.exchange_request Sample.expired ["callback"] Sample.start);
    reflexivity.
Defined.

(** ** More properties on the sample client *)

#[local] Existing Instance Sample.environment.
#[local] Existing Instance Sample.graph_api.

(** *** Classification *)

Lemma call_handlers_rejected_witness :
  _get_handler (Sample.client true) Sample.no_metadata_update = Raise KeyError ∧
  _call_handlers (Sample.client true) Sample.no_metadata_update Sample.start
    = (Ok (), Sample.start).
Proof.
  split; [reflexivity|].
  exact (proj2 (call_handlers_rejected (constructors := Sample.constructors)
                  (Sample.client true) Sample.no_metadata_update KeyError Sample.start
                  eq_refl)).
Defined.

Lemma get_handler_interactive_known_witness :
  _get_handler (Sample.client false) Sample.list_reply_update
    = Ok (Some CallbackSelectionHandler).
Proof.
  eapply (get_handler_interactive_known (Sample.client false) Sample.list_reply_update
            _ _ _ _ _ _ _ "list_reply"); try reflexivity.
  apply list_elem_of_further, list_elem_of_here.
Defined.

Lemma get_handler_message_type_witness :
  _get_handler (Sample.client false) Sample.button_update = Ok (Some CallbackButtonHandler).
Proof.
  eapply (get_handler_message_type (Sample.client false) Sample.button_update
            _ _ _ _ _ (JStr "button")); reflexivity.
Defined.

Lemma get_handler_statuses_witness :
  _get_handler (Sample.client false) Sample.status_update = Ok (Some MessageStatusHandler).
Proof.
  etransitivity.
  - eapply (get_handler_statuses (Sample.client false) Sample.status_update
              _ _ (list_to_map [("statuses", JList [])])); reflexivity.
  - reflexivity.
Defined.

Lemma call_handlers_other_recipient_witness :
  _get_handler (Sample.client true) Sample.text_update = Ok None ∧
  _call_handlers (Sample.client true) Sample.text_update Sample.start
    = for_each_handler RawUpdateHandler [Sample.raw_logger]
        (RawUpdate Sample.text_update) Sample.start.
Proof.
  eapply (call_handlers_other_recipient (constructors := Sample.constructors)
            (Sample.client true) Sample.text_update); reflexivity.
Defined.

Lemma get_handler_messages_range_witness : MessageHandler ∈ message_categories.
Proof.
  eapply (get_handler_messages_range (Sample.client false) Sample.unknown_reply_update);
    reflexivity.
Defined.

Lemma get_handler_field_table_witness :
  _get_handler (Sample.client false) Sample.alerts_update
    = Ok (Some (OtherHandler "AccountAlertsHandler")).
Proof.
  eapply (get_handler_field_table (Sample.client false) Sample.alerts_update
            _ "account_alerts"); try reflexivity.
  discriminate.
Defined.

(** *** Dispatch *)

Lemma call_handlers_construction_failed_witness :
  _call_handlers (constructors := Sample.failing_constructors)
    (Sample.client false) Sample.text_update Sample.start
    = for_each_handler RawUpdateHandler [Sample.raw_logger]
        (RawUpdate Sample.text_update) Sample.start.
Proof.
  eapply (call_handlers_construction_failed (constructors := Sample.failing_constructors)
            (Sample.client false) Sample.text_update MessageHandler
            (OtherException "ValidationError")); reflexivity.
Defined.

(** The handlers of the client with the unnamed callback raise nothing
    outside [Exception], and its raw-update handler does not raise. *)
Lemma partial_handlers_raise_exceptions category (handler : @Handler Sample.package) d s e s' :
  handler ∈ _handlers Sample.partial_client category →
  handle handler d s = (Raise e, s') →
  isinstance_Exception e = true.
Proof.
  intros Hin Hh. destruct category; simpl in Hin;
    repeat (apply elem_of_cons in Hin as [->|Hin]);
    try (by apply elem_of_nil in Hin);
    simpl in Hh; inversion Hh; reflexivity.
Qed.

Lemma partial_raw_handlers_named (handler : @Handler Sample.package) d s e s' :
  handler ∈ _handlers Sample.partial_client RawUpdateHandler →
  handle handler d s = (Raise e, s') →
  isinstance_StopHandling e = false →
  is_Some (callback_name handler).
Proof.
  intros Hin Hh _. simpl in Hin. apply list_elem_of_singleton in Hin as ->.
  simpl in Hh. inversion Hh.
Qed.

(** The unnamed callback of the category raises, and the dispatch returns
    all the same. *)
Lemma call_handlers_never_raises_witness :
  (_call_handlers Sample.partial_client Sample.text_update Sample.start).1 = Ok () ∧
  (_call_handlers Sample.partial_client (JList []) Sample.start).1 = Ok ().
Proof.
  split;
    apply (call_handlers_never_raises (constructors := Sample.constructors));
    try (intros category handler d s e s'; apply partial_handlers_raise_exceptions);
    try (intros handler d s e s'; apply partial_raw_handlers_named);
    intros category e; discriminate.
Defined.

Lemma call_handlers_calls_of_witness :
  Sample.raw_logger ∈ _handlers (Sample.client false) RawUpdateHandler.
Proof.
  destruct (call_handlers_calls_of (constructors := Sample.constructors)
              (Sample.client false) Sample.text_update Sample.start
              (Handled RawUpdateHandler Sample.raw_logger (RawUpdate Sample.text_update)
                 (Ok ())))
    as [Hin|(category & handler & d & outcome & Hev & Hin & _)].
  - do 2 apply list_elem_of_further. apply list_elem_of_here.
  - by apply elem_of_nil in Hin.
  - by injection Hev as <- <- _ _.
Defined.

Lemma call_handlers_all_called_witness :
  ∃ outcomes raw_outcomes,
    length outcomes = 2%nat ∧ length raw_outcomes = 1%nat ∧
    calls (_call_handlers Sample.quiet_client Sample.text_update Sample.start).2 =
      loop_calls MessageHandler [Sample.returning "first"; Sample.returning "second"]
        (Constructed Sample.text_update) outcomes
      ++ loop_calls RawUpdateHandler [Sample.raw_logger]
           (RawUpdate Sample.text_update) raw_outcomes.
Proof.
  apply (call_handlers_all_called (constructors := Sample.constructors)
           Sample.quiet_client Sample.text_update MessageHandler Sample.text_update
           Sample.start eq_refl eq_refl).
  intros category handler d s Hin. destruct category; simpl in Hin;
    repeat (apply elem_of_cons in Hin as [->|Hin]);
    try (by apply elem_of_nil in Hin); reflexivity.
Defined.

(** *** Flow endpoint *)

Lemma flow_parse_failed_witness :
  flow_request_handler (Sample.strict_endpoint (λ _ s, (Raise Sample.expired, s)))
    (Sample.envelope Sample.tokenless_request) (@Build_world Sample.strict_package [] [])
    = (Ok ("Failed to construct FlowRequest", 500), @Build_world Sample.strict_package [] []).
Proof.
  eapply (flow_parse_failed (pkg := Sample.strict_package)); reflexivity.
Defined.

Lemma flow_callback_failed_witness :
  flow_request_handler
    (Sample.flow_endpoint (Sample.cb_raises (OtherException "ZeroDivisionError")))
    (Sample.envelope Sample.error_request) Sample.start
    = (Ok ("An error occurred", 500),
       Build_world ["callback"] [FlowCallback Sample.error_request]).
Proof.
  etransitivity.
  - eapply (flow_callback_failed
              (Sample.flow_endpoint (Sample.cb_raises (OtherException "ZeroDivisionError"))));
      reflexivity.
  - reflexivity.
Defined.

Lemma flow_success_witness :
  flow_request_handler
    (Sample.flow_endpoint (Sample.cb_returns Sample.done_response))
    (Sample.envelope Sample.exchange_request) Sample.start
    = (Ok ("sealed data", 200),
       Build_world ["callback"] [FlowCallback Sample.exchange_request]).
Proof.
  etransitivity.
  - eapply (flow_success
              (Sample.flow_endpoint
                 (Sample.cb_returns Sample.done_response))
              _ _ _ _ _ _ Sample.done_screen); try reflexivity.
    left. by exists Sample.done_screen.
  - reflexivity.
Defined.

Lemma flow_wrong_return_type_witness :
  flow_request_handler (Sample.flow_endpoint (Sample.cb_returns (ReturnedOther "NoneType")))
    (Sample.envelope Sample.exchange_request) Sample.start
    = (Raise TypeError, Build_world ["callback"] [FlowCallback Sample.exchange_request]).
Proof.
  etransitivity.
  - eapply (flow_wrong_return_type
              (Sample.flow_endpoint (Sample.cb_returns (ReturnedOther "NoneType"))));
      try reflexivity.
    left. by exists "NoneType".
  - reflexivity.
Defined.

Lemma flow_health_check_off_witness :
  (flow_request_handler (Sample.unchecked_endpoint (Sample.cb_returns (ReturnedDict ∅)))
     (Sample.envelope Sample.ping_request) Sample.start).2
    = Build_world ["callback"] [FlowCallback Sample.ping_request].
Proof.
  etransitivity.
  - eapply (flow_health_check_off
              (Sample.unchecked_endpoint (Sample.cb_returns (ReturnedDict ∅))));
      reflexivity.
  - reflexivity.
Defined.

Lemma flow_response_bodies_witness :
  ("sealed error_msg expired", 427) = ("Decryption failed", 421) ∨
  ("sealed error_msg expired", 427) = ("Failed to construct FlowRequest", 500) ∨
  ("sealed error_msg expired", 427) = ("An error occurred", 500) ∨
  (∃ decrypted_request aes_key iv request s,
     decrypt (Sample.flow_endpoint (Sample.cb_raises Sample.expired))
       (Sample.envelope Sample.exchange_request) = Ok (decrypted_request, aes_key, iv) ∧
     FlowRequest_from_dict decrypted_request (Sample.envelope Sample.exchange_request)
       = Ok request ∧
     (Sample.cb_raises Sample.expired request []
        = (Raise (FlowResponseError "sealed error_msg expired" 427), s) ∨
      Sample.cb_raises Sample.expired request []
        = (Ok (ReturnedException (FlowResponseError "sealed error_msg expired" 427)), s))) ∨
  (∃ decrypted_request aes_key iv reply,
     decrypt (Sample.flow_endpoint (Sample.cb_raises Sample.expired))
       (Sample.envelope Sample.exchange_request) = Ok (decrypted_request, aes_key, iv) ∧
     Sample.encryptor reply aes_key iv = Ok "sealed error_msg expired").
Proof.
  apply (flow_response_bodies (Sample.flow_endpoint (Sample.cb_raises Sample.expired))
           (Sample.envelope Sample.exchange_request) Sample.start).
  reflexivity.
Defined.

(** *** Setting up *)

(** What [__init__] does with the arguments of the sample. *)
Example init_sample :
  __init__ Sample.server_args =
    (Ok (Some Sample.listening, Some Sample.registration),
     [Route "GET" "/webhook" (ChallengeView "038726584673");
      Route "POST" "/webhook" WebhookView]).
Proof. reflexivity. Qed.

Lemma init_listening_witness :
  ∃ token,
    server Sample.server_args = Some "flask" ∧
    is_flask_app "flask" || is_fastapi_app "flask" = true ∧
    verify_token Sample.server_args = Some token ∧ token ≠ "" ∧
    "/webhook" = webhook_endpoint Sample.server_args ∧
    [Route (pkg := Sample.package) "GET" "/webhook" (ChallengeView "038726584673");
     Route "POST" "/webhook" WebhookView] =
      [Route "GET" (webhook_endpoint Sample.server_args) (ChallengeView token);
       Route "POST" (webhook_endpoint Sample.server_args) WebhookView] ∧
    callback_url Sample.server_args = Some "https://still-kindly-chigger.ngrok-free.app/" ∧
    app_id Sample.server_args = Some 960188065899584 ∧
    app_secret Sample.server_args = Some "dd6427d4" ∧
    "038726584673" = token ∧
    "/webhook" = webhook_endpoint Sample.server_args.
Proof.
  exact (init_listening (pkg := Sample.package) Sample.server_args Sample.listening
           (Some Sample.registration) _ eq_refl).
Defined.

Lemma init_challenge_witness :
  (flask_challenge "038726584673"
     (list_to_map [("hub.verify_token", "038726584673"); ("hub.challenge", "abc123")])).2
    = 200 ∧
  (flask_challenge "038726584673" (list_to_map [("hub.challenge", "abc123")])).2 = 403.
Proof.
  destruct (init_challenge (pkg := Sample.package) Sample.server_args Sample.listening
              (Some Sample.registration) _ "/webhook" "038726584673"
              (list_to_map [("hub.verify_token", "038726584673"); ("hub.challenge", "abc123")])
              eq_refl (list_elem_of_here _ _)) as (Hpass & _ & _).
  destruct (init_challenge (pkg := Sample.package) Sample.server_args Sample.listening
              (Some Sample.registration) _ "/webhook" "038726584673"
              (list_to_map [("hub.challenge", "abc123")])
              eq_refl (list_elem_of_here _ _)) as (_ & Hfail & _).
  split; [by apply Hpass|]. apply Hfail. by left.
Defined.

(** The flow endpoint of the samples, registered on the listening client
    with nothing but the client's key, decryptor and encryptor. *)
Example register_flow_endpoint_sample :
  _register_flow_endpoint_callback (Some Sample.listening) "/flow"
    (Sample.named (Sample.cb_returns Sample.done_response)) true true None None None None =
    Ok [Route "POST" "/flow"
          (FlowView (Sample.flow_endpoint (Sample.cb_returns Sample.done_response)))].
Proof. reflexivity. Qed.


(** Registered with another key and an empty password, the endpoint has
    that key and the password of the client. *)
Lemma register_flow_endpoint_precedence_witness :
  _register_flow_endpoint_callback (Some Sample.listening) "/flow"
    (Sample.named (Sample.cb_returns Sample.done_response)) true true
    (Some "ANOTHER KEY") (Some "") None None =
    Ok [Route "POST" "/flow"
          (FlowView
             (Build_FlowEndpoint "/flow"
                (Sample.named (Sample.cb_returns Sample.done_response)) true true
                "ANOTHER KEY" None Sample.decryptor Sample.encryptor))] ∧
  Some "ANOTHER KEY" = Some "ANOTHER KEY" ∧
  None = _private_key_password Sample.listening.
Proof.
  split; [reflexivity|].
  destruct (register_flow_endpoint_precedence (pkg := Sample.package) Sample.listening "/flow"
              (Sample.named (Sample.cb_returns Sample.done_response)) true true
              (Some "ANOTHER KEY") (Some "") None None _ _ eq_refl eq_refl)
    as (Hkey & Hpassword & _).
  split; [exact Hkey|exact Hpassword].
Defined.

Lemma flow_route_apart_witness :
  route_path (Route (pkg := Sample.package) "POST" "/webhook" WebhookView) ≠
  route_path
    (Route "POST" "/flow"
       (FlowView (Sample.flow_endpoint (Sample.cb_returns Sample.done_response)))).
Proof.
  apply (flow_route_apart (pkg := Sample.package) Sample.server_args (Some Sample.listening)
           (Some Sample.registration) _ "/flow"
           (Sample.named (Sample.cb_returns Sample.done_response))
           true true None None None None _ eq_refl eq_refl).
  - apply list_elem_of_further, list_elem_of_here.
  - apply list_elem_of_here.
Defined.

(** *** Registering the callback URL *)

(** The sample's callback URL ends with a slash and its endpoint starts
    with one. *)
Example full_url_sample :
  full_url "https://still-kindly-chigger.ngrok-free.app/" "/webhook"
    = "https://still-kindly-chigger.ngrok-free.app/webhook".
Proof. reflexivity. Qed.

Lemma full_url_slashes_witness : full_url "w.me" "hook" = "w.me/hook".
Proof.
  apply (full_url_slashes "w.me" "hook").
  - intros [|c1 [|c2 [|c3 [|c4 [|c5 t]]]]]; simpl; discriminate.
  - intros t. discriminate.
Defined.

Lemma subscribed_fields_default_witness :
  "account_alerts" ∈ subscribed_fields (pkg := Sample.package) (Some []).
Proof.
  apply (proj1 (subscribed_fields_default (pkg := Sample.package) (Some []))).
  - by right.
  - by exists (OtherHandler "AccountAlertsHandler").
Defined.

(** The steps of the sample registration. *)
Example register_callback_url_sample :
  register_callback_url (pkg := Sample.package) Sample.registration =
    (Ok (),
     [Slept 4;
      AskedAccessToken 960188065899584 "dd6427d4";
      SetCallbackUrl 960188065899584 (JStr "a-token")
        "https://still-kindly-chigger.ngrok-free.app/webhook" "038726584673"
        ["account_alerts"]]).
Proof. reflexivity. Qed.

Lemma register_callback_url_done_witness :
  ∃ token access reply success,
    get_app_access_token 960188065899584 "dd6427d4" = Ok token ∧
    token.["access_token"] = Ok access ∧
    set_app_callback_url 960188065899584 access
      (full_url "https://still-kindly-chigger.ngrok-free.app/" "/webhook")
      "038726584673" (subscribed_fields (pkg := Sample.package) None) = Ok reply ∧
    reply.["success"] = Ok success ∧
    truthy success = true.
Proof.
  assert (Hrun : register_callback_url (pkg := Sample.package) Sample.registration =
    (Ok (),
     [Slept 4;
      AskedAccessToken 960188065899584 "dd6427d4";
      SetCallbackUrl 960188065899584 (JStr "a-token")
        "https://still-kindly-chigger.ngrok-free.app/webhook" "038726584673"
        ["account_alerts"]])) by reflexivity.
  destruct (register_callback_url_done (pkg := Sample.package) Sample.registration _ Hrun)
    as (token & access & reply & success & Htoken & Haccess & Hset & Hsuccess & Htrue & _).
  exists token, access, reply, success.
  split; [exact Htoken|]. split; [exact Haccess|]. split; [exact Hset|].
  split; [exact Hsuccess|exact Htrue].
Defined.

(** A registration with an app secret that the API does not know. *)
Lemma register_callback_url_raises_witness :
  (register_callback_url (pkg := Sample.package)
     (Build_Registration "https://w.me" "hook" 1 "guess" "t0k3n" None None)).1
    = Raise (OtherException "RuntimeError").
Proof.
  apply (register_callback_url_raises (pkg := Sample.package)
           (Build_Registration "https://w.me" "hook" 1 "guess" "t0k3n" None None))
    with (e := OtherException "WhatsAppError"); reflexivity.
Defined.

Lemma register_callback_url_steps_witness :
  0 < 4 ∧ reg_verify_timeout Sample.registration = Some (4 + 6).
Proof.
  apply (register_callback_url_steps (pkg := Sample.package) Sample.registration (Slept 4)).
  apply list_elem_of_here.
Defined.
